(** * Crystal Growth Simulator: the compute/render pipeline of CrystalC++.cpp

    A shallow embedding of the particle store, the compute kernel, the
    draw call and the frame loop of [CrystalC++.cpp], with the properties
    of the design document stated against it.

    Conventions.
    - A C++/GLSL [float] is an IEEE binary32 number ([spec_float] with
      precision 24 and maximal exponent 128, round to nearest even).
    - The data store of [particleBuffer] is a list of 4-byte slots, one
      [float] each; byte offsets and sizes of the source are kept and divided
      by 4 where the list is indexed.
    - [MAX_PARTICLES] is a constant of the source; the functions below take
      the particle count as an argument [n] and the program is the instance
      [n = MAX_PARTICLES]. *)

From Stdlib Require Import ZArith Lia Bool String.
From Stdlib Require Import Floats.SpecFloat.
From stdpp Require Import base option list.

Local Open Scope nat_scope.

(** ** binary32 arithmetic *)

Module F32.
Definition prec : Z := 24.
Definition emax : Z := 128.

Definition add : spec_float -> spec_float -> spec_float := SFadd prec emax.
Definition sub : spec_float -> spec_float -> spec_float := SFsub prec emax.
Definition mul : spec_float -> spec_float -> spec_float := SFmul prec emax.
Definition div : spec_float -> spec_float -> spec_float := SFdiv prec emax.

(** An integer, rounded to binary32. *)
Definition of_Z (k : Z) : spec_float := binary_normalize prec emax k 0 false.

Definition zero : spec_float := S754_zero false.
Definition one : spec_float := S754_finite false 8388608 (-23).
Definition half : spec_float := S754_finite false 8388608 (-24).
(** [0.01f]: the binary32 number nearest to 1/100, bits [0x3C23D70A]. *)
Definition cst_0_01 : spec_float := S754_finite false 10737418 (-30).

(** Neither an infinity nor a NaN. *)
Definition is_finite (a : spec_float) : bool :=
  match a with
  | S754_zero _ | S754_finite _ _ _ => true
  | S754_infinity _ | S754_nan => false
  end.

Definition is_zero (a : spec_float) : bool :=
  match a with
  | S754_zero _ => true
  | _ => false
  end.

(** The same number: the same datum, or two zeros (of any sign). *)
Definition same_value (a b : spec_float) : Prop :=
  a = b \/ (is_zero a = true /\ is_zero b = true).
End F32.

Definition float : Type := spec_float.

(** ** Vectors and matrices (glm / GLSL) *)

Record vec3 := Vec3 { vx : float; vy : float; vz : float }.
Record vec4 := Vec4 { px : float; py : float; pz : float; pw : float }.
(** Column major, as [glm::mat4] and GLSL's [mat4]. *)
Record mat4 := Mat4 { col0 : vec4; col1 : vec4; col2 : vec4; col3 : vec4 }.

(** [glm::vec3(s)]: all three components equal to [s]. *)
Definition vec3_splat (s : float) : vec3 := Vec3 s s s.

(** GLSL [v * s] for a [vec3] and a [float]. *)
Definition vec3_scale (v : vec3) (s : float) : vec3 :=
  Vec3 (F32.mul (vx v) s) (F32.mul (vy v) s) (F32.mul (vz v) s).

(** GLSL [a + b] on [vec3]. *)
Definition vec3_add (a b : vec3) : vec3 :=
  Vec3 (F32.add (vx a) (vx b)) (F32.add (vy a) (vy b)) (F32.add (vz a) (vz b)).

Definition vec4_scale (v : vec4) (s : float) : vec4 :=
  Vec4 (F32.mul (px v) s) (F32.mul (py v) s) (F32.mul (pz v) s) (F32.mul (pw v) s).

Definition vec4_add (a b : vec4) : vec4 :=
  Vec4 (F32.add (px a) (px b)) (F32.add (py a) (py b))
       (F32.add (pz a) (pz b)) (F32.add (pw a) (pw b)).

(** GLSL [m * v]: the linear combination of the columns of [m]. *)
Definition mat4_mul_vec4 (m : mat4) (v : vec4) : vec4 :=
  vec4_add (vec4_add (vec4_add (vec4_scale (col0 m) (px v))
                               (vec4_scale (col1 m) (py v)))
                     (vec4_scale (col2 m) (pz v)))
           (vec4_scale (col3 m) (pw v)).

(** ** Simulation settings (lines 12-17) *)

Definition WIDTH : nat := 800.
Definition HEIGHT : nat := 600.
Definition MAX_PARTICLES : nat := 100.
(** The initial values of the two mutable globals. *)
Definition simulationSpeed : float := F32.one.
Definition paused : bool := false.

(** [sizeof(glm::vec3)] and [sizeof(float)], in bytes. *)
Definition sizeof_vec3 : nat := 12.
Definition sizeof_float : nat := 4.

(** ** The data store of a buffer object *)

Abbreviation store := (list float).

(** The three packed floats of a [glm::vec3] in host memory. *)
Definition vec3_floats (v : vec3) : list float := [vx v; vy v; vz v].

(** [std::vector<glm::vec3>::data()]: the elements, packed. *)
Definition vector_data (vs : list vec3) : list float :=
  concat (map vec3_floats vs).

(** [glBufferData(target, size, nullptr, usage)]: a fresh data store of
    [size] bytes whose contents are undefined; [junk] gives them. *)
Definition glBufferData (size : nat) (junk : nat -> float) : store :=
  map junk (seq 0 (size / sizeof_float)).

(** [glBufferSubData(target, offset, size, data)]: overwrite [size] bytes at
    byte [offset]; GL_INVALID_VALUE and no change when the range leaves the
    data store. *)
Definition glBufferSubData (offset size : nat) (data : list float) (b : store) : store :=
  if decide (offset + size <= length b * sizeof_float)
  then list_inserts (offset / sizeof_float) (take (size / sizeof_float) data) b
  else b.

(** [initParticles] (lines 132-142), the buffer it builds: the positions
    uploaded at byte 0 and the velocities right behind them.  The source
    fixes [p0 = glm::vec3(0.0f)] and [v0 = glm::vec3(0.01f, 0.0f, 0.0f)]. *)
Definition initParticles_store (n : nat) (p0 v0 : vec3) (junk : nat -> float) : store :=
  let initialPositions := replicate n p0 in
  let initialVelocities := replicate n v0 in
  let b := glBufferData (n * sizeof_vec3 * 2) junk in
  let b := glBufferSubData 0 (n * sizeof_vec3) (vector_data initialPositions) b in
  glBufferSubData (n * sizeof_vec3) (n * sizeof_vec3) (vector_data initialVelocities) b.

Definition origin : vec3 := vec3_splat F32.zero.
Definition default_velocity : vec3 := Vec3 F32.cst_0_01 F32.zero F32.zero.

(** The host's view of the store: particle [i]'s position is the [i]-th
    [vec3] of the first region, its velocity the [i]-th of the second. *)
Definition read_vec3 (b : store) (slot : nat) : option vec3 :=
  x ← b !! slot; y ← b !! (slot + 1); z ← b !! (slot + 2); Some (Vec3 x y z).

Definition host_position (b : store) (i : nat) : option vec3 :=
  read_vec3 b (i * sizeof_vec3 / sizeof_float).

Definition host_velocity (n : nat) (b : store) (i : nat) : option vec3 :=
  read_vec3 b ((n * sizeof_vec3 + i * sizeof_vec3) / sizeof_float).

(** The two regions, as slot ranges. *)
Definition positions_region (n : nat) (b : store) : list float :=
  take (n * sizeof_vec3 / sizeof_float) b.
Definition velocities_region (n : nat) (b : store) : list float :=
  drop (n * sizeof_vec3 / sizeof_float) b.

(** ** The compute kernel (lines 25-44)

    The shader storage block is declared [std430] over an array of
    [struct Particle { vec3 position; vec3 velocity; }].  Under std430 a
    [vec3] is aligned to 16 bytes, so [position] sits at byte 0 of a record,
    [velocity] at byte 16, and the array stride is 32 bytes. *)

Definition local_size_x : nat := 256.
Definition Particle_stride : nat := 32.
Definition Particle_position : nat := 0.
Definition Particle_velocity : nat := 16.

Definition position_slot (id : nat) : nat :=
  (id * Particle_stride + Particle_position) / sizeof_float.
Definition velocity_slot (id : nat) : nat :=
  (id * Particle_stride + Particle_velocity) / sizeof_float.

Definition write_vec3 (b : store) (slot : nat) (v : vec3) : store :=
  <[slot + 2 := vz v]> (<[slot + 1 := vy v]> (<[slot := vx v]> b)).

(** The kernel's view of record [id]. *)
Definition particle_position (b : store) (id : nat) : option vec3 :=
  read_vec3 b (position_slot id).
Definition particle_velocity (b : store) (id : nat) : option vec3 :=
  read_vec3 b (velocity_slot id).

(** One invocation of [main()] with [gl_GlobalInvocationID.x = id]:
    [particles[id].position += particles[id].velocity * deltaTime].
    [None] when the record is not inside the data store: the access is out of
    bounds and its result undefined. *)
Definition computeShader_main (deltaTime : float) (id : nat) (b : store) : option store :=
  velocity ← particle_velocity b id;
  position ← particle_position b id;
  Some (write_vec3 b (position_slot id)
          (vec3_add position (vec3_scale velocity deltaTime))).

(** The invocations of one dispatch of [num_groups_x] work groups:
    [gl_GlobalInvocationID.x] ranges over [0 .. num_groups_x * 256 - 1]. *)
Definition invocation_ids (num_groups_x : nat) : list nat :=
  seq 0 (num_groups_x * local_size_x).

(** The invocations touch pairwise disjoint records, so running them one
    after the other in any order gives the result of the parallel dispatch. *)
Fixpoint run_invocations (deltaTime : float) (ids : list nat) (b : store) : option store :=
  match ids with
  | [] => Some b
  | id :: rest => b' ← computeShader_main deltaTime id b; run_invocations deltaTime rest b'
  end.

(** How many invocations of one dispatch run with a given id. *)
Definition updates_received (num_groups_x : nat) (i : nat) : nat :=
  length (filter (fun id => id = i) (invocation_ids num_groups_x)).

(** ** The vertex and fragment shaders (lines 46-61) *)

Definition vertexShader_main (modelViewProjection : mat4) (position : vec3) : vec4 :=
  mat4_mul_vec4 modelViewProjection (Vec4 (vx position) (vy position) (vz position) F32.one).

Definition fragmentShader_main : vec4 :=
  Vec4 F32.one F32.zero F32.zero F32.one.

(** ** The GL context *)

Inductive program := computeShaderProgram | renderShaderProgram.

(** What the process writes and the commands it issues, in program order.
    [Cerr] is a line the program itself writes to [std::cerr]; the info log
    that follows it in the source is the implementation's and is left out.
    What the implementation hands to [debugCallback] (lines 75-78), and
    when, is implementation-defined and not part of the trace. *)
Inductive call :=
| Cerr (message : string)
| Cout_particle (i : nat) (position : vec3)
| GlCompileShader (shaderType : string)
| GlLinkProgram (p : program)
| GlBufferData (size : nat)
| GlBufferSubData (offset size : nat)
| GlUseProgram (p : program)
| GlUniform1f (name : string) (value : float)
| GlDispatchCompute (num_groups_x : nat)
| GlMemoryBarrier
| GlClear
| GlUniformMatrix4fv (name : string) (value : mat4)
| GlBindVertexArray
| GlDrawArrays (first count : nat)
| GlfwSwapBuffers
| GlfwPollEvents
| GlfwTerminate.

(** A write to the colour and depth planes of the window's framebuffer. *)
Inductive fb_write :=
| FbClear
| FbPoints (clip_positions : list vec4) (colour : vec4)
| FbUndefined.

Record GL := MkGL {
  (** the data store of [particleBuffer]; [None]: contents undefined *)
  particleBuffer : option store;
  (** GL_LINK_STATUS of the two programs *)
  computeLinked : bool;
  renderLinked : bool;
  (** the program installed by the last successful [glUseProgram] *)
  currentProgram : option program;
  (** the uniforms [deltaTime] and [modelViewProjection] *)
  u_deltaTime : float;
  u_modelViewProjection : mat4;
  (** the writes to the framebuffer, oldest first *)
  framebuffer : list fb_write;
  (** everything issued so far, oldest first *)
  issued : list call
}.

Definition emit (cs : list call) (g : GL) : GL :=
  MkGL (particleBuffer g) (computeLinked g) (renderLinked g) (currentProgram g)
       (u_deltaTime g) (u_modelViewProjection g) (framebuffer g) (issued g ++ cs).

Definition set_particleBuffer (b : option store) (g : GL) : GL :=
  MkGL b (computeLinked g) (renderLinked g) (currentProgram g)
       (u_deltaTime g) (u_modelViewProjection g) (framebuffer g) (issued g).

Definition set_currentProgram (p : option program) (g : GL) : GL :=
  MkGL (particleBuffer g) (computeLinked g) (renderLinked g) p
       (u_deltaTime g) (u_modelViewProjection g) (framebuffer g) (issued g).

Definition set_u_deltaTime (v : float) (g : GL) : GL :=
  MkGL (particleBuffer g) (computeLinked g) (renderLinked g) (currentProgram g)
       v (u_modelViewProjection g) (framebuffer g) (issued g).

Definition set_u_modelViewProjection (m : mat4) (g : GL) : GL :=
  MkGL (particleBuffer g) (computeLinked g) (renderLinked g) (currentProgram g)
       (u_deltaTime g) m (framebuffer g) (issued g).

Definition write_framebuffer (w : fb_write) (g : GL) : GL :=
  MkGL (particleBuffer g) (computeLinked g) (renderLinked g) (currentProgram g)
       (u_deltaTime g) (u_modelViewProjection g) (framebuffer g ++ [w]) (issued g).

Definition linked (p : program) (g : GL) : bool :=
  match p with
  | computeShaderProgram => computeLinked g
  | renderShaderProgram => renderLinked g
  end.

(** [glUseProgram(p)]: GL_INVALID_OPERATION and no change when [p] has not
    been linked successfully. *)
Definition glUseProgram (p : program) (g : GL) : GL :=
  emit [GlUseProgram p]
    (if linked p g then set_currentProgram (Some p) g else g).

(** [glUniform1f(glGetUniformLocation(computeShaderProgram, "deltaTime"), v)]:
    the location is -1 and the command ignored unless the program is linked. *)
Definition glUniform1f_deltaTime (v : float) (g : GL) : GL :=
  emit [GlUniform1f "deltaTime" v]
    (if computeLinked g then set_u_deltaTime v g else g).

Definition glUniformMatrix4fv_modelViewProjection (m : mat4) (g : GL) : GL :=
  emit [GlUniformMatrix4fv "modelViewProjection" m]
    (if renderLinked g then set_u_modelViewProjection m g else g).

(** [glDispatchCompute(num_groups_x, 1, 1)]: runs the kernel over the
    particle buffer bound at binding 0; GL_INVALID_OPERATION and no work
    when the current program has no compute stage. *)
Definition glDispatchCompute (num_groups_x : nat) (g : GL) : GL :=
  emit [GlDispatchCompute num_groups_x]
    (match currentProgram g with
     | Some computeShaderProgram =>
         set_particleBuffer
           (particleBuffer g ≫= run_invocations (u_deltaTime g) (invocation_ids num_groups_x)) g
     | _ => g
     end).

(** [glMemoryBarrier(GL_SHADER_STORAGE_BARRIER_BIT)]: orders the shader
    writes before later commands; the data are not changed. *)
Definition glMemoryBarrier (g : GL) : GL := emit [GlMemoryBarrier] g.

(** Run Compute Shader (lines 167-172). *)
Definition runComputeShader (n : nat) (deltaTime : float) (g : GL) : GL :=
  let g := glUseProgram computeShaderProgram g in
  let g := glUniform1f_deltaTime deltaTime g in
  let g := glDispatchCompute (n / 256) g in
  glMemoryBarrier g.

(** ** The draw (lines 174-195) *)

(** The vertex array object [vao] has no attribute array enabled (the source
    never sets one up), so the vertex shader input [position] takes the
    current value of generic attribute 0, which is [(0, 0, 0)] initially and
    is never changed. *)
Definition current_attribute0 : vec3 := vec3_splat F32.zero.

(** [glDrawArrays(GL_POINTS, first, count)]: one point per vertex, through
    the vertex and fragment shaders of the current program; the result is
    undefined when the current program has no vertex stage. *)
Definition glDrawArrays_points (first count : nat) (g : GL) : GL :=
  emit [GlDrawArrays first count]
    (write_framebuffer
       (match currentProgram g with
        | Some renderShaderProgram =>
            FbPoints
              (map (fun _ => vertexShader_main (u_modelViewProjection g) current_attribute0)
                   (seq first count))
              fragmentShader_main
        | _ => FbUndefined
        end) g).

(** Render Particles (lines 175-181). *)
Definition renderParticles (n : nat) (mvp : mat4) (g : GL) : GL :=
  let g := glUseProgram renderShaderProgram g in
  let g := glUniformMatrix4fv_modelViewProjection mvp g in
  let g := emit [GlBindVertexArray] g in
  glDrawArrays_points 0 n g.

Definition glClear (g : GL) : GL := emit [GlClear] (write_framebuffer FbClear g).

(** Display Function (lines 184-195).  [camera] is the value of
    [projection * view], which glm computes from constants only. *)
Definition display (n : nat) (camera : mat4) (g : GL) : GL :=
  let g := glClear g in
  let mvp := camera in
  let g := renderParticles n mvp g in
  emit [GlfwSwapBuffers; GlfwPollEvents] g.

(** ** The frame loop (lines 219-230) *)

(** What one iteration reads from outside: [glfwGetTime()] converted to
    [float], and the two mutable globals. *)
Record Frame := MkFrame {
  currentTime : float;
  frame_paused : bool;
  frame_simulationSpeed : float
}.

Record Driver := MkDriver { lastTime : float; gl : GL }.

Definition loop_body (n : nat) (camera : mat4) (d : Driver) (f : Frame) : Driver :=
  let deltaTime := F32.sub (currentTime f) (lastTime d) in
  let lastTime' := currentTime f in
  let g := if negb (frame_paused f)
           then runComputeShader n (F32.mul deltaTime (frame_simulationSpeed f)) (gl d)
           else gl d in
  MkDriver lastTime' (display n camera g).

(** The iterations run while [glfwWindowShouldClose] is false. *)
Definition run_loop (n : nat) (camera : mat4) (frames : list Frame) (d : Driver) : Driver :=
  foldl (loop_body n camera) d frames.

(** The commands one iteration issues. *)
Definition frame_calls (n : nat) (camera : mat4) (d : Driver) (f : Frame) : list call :=
  drop (length (issued (gl d))) (issued (gl (loop_body n camera d f))).

(** ** Startup (lines 63-164, 198-217) *)

(** What the platform answers at startup. *)
Record Env := MkEnv {
  glfwInit_ok : bool;
  window_ok : bool;
  compute_compile_status : bool;
  compute_link_status : bool;
  vertex_compile_status : bool;
  fragment_compile_status : bool;
  render_link_status : bool;
  (** the undefined contents of a fresh data store *)
  junk : nat -> float;
  camera : mat4;
  (** the first [glfwGetTime()] *)
  startTime : float
}.

(** Function to check shader compilation (lines 64-72). *)
Definition checkShaderCompilation (success : bool) (shaderType : string) (g : GL) : GL :=
  if negb success
  then emit [Cerr ("Error compiling " ++ shaderType ++ " shader:")] g
  else g.

Definition set_computeLinked (ok : bool) (g : GL) : GL :=
  MkGL (particleBuffer g) ok (renderLinked g) (currentProgram g)
       (u_deltaTime g) (u_modelViewProjection g) (framebuffer g) (issued g).

Definition set_renderLinked (ok : bool) (g : GL) : GL :=
  MkGL (particleBuffer g) (computeLinked g) ok (currentProgram g)
       (u_deltaTime g) (u_modelViewProjection g) (framebuffer g) (issued g).

(** Initialize Compute Shader (lines 81-100).  A program links only if its
    shaders compiled. *)
Definition initComputeShader (env : Env) (g : GL) : GL :=
  let g := emit [GlCompileShader "Compute"] g in
  let g := checkShaderCompilation (compute_compile_status env) "Compute" g in
  let success := compute_compile_status env && compute_link_status env in
  let g := set_computeLinked success (emit [GlLinkProgram computeShaderProgram] g) in
  if negb success
  then emit [Cerr "Error linking compute shader program:"] g
  else g.

(** Initialize Render Shader (lines 103-129). *)
Definition initRenderShader (env : Env) (g : GL) : GL :=
  let g := emit [GlCompileShader "Vertex"] g in
  let g := checkShaderCompilation (vertex_compile_status env) "Vertex" g in
  let g := emit [GlCompileShader "Fragment"] g in
  let g := checkShaderCompilation (fragment_compile_status env) "Fragment" g in
  let success := vertex_compile_status env && fragment_compile_status env
                 && render_link_status env in
  let g := set_renderLinked success (emit [GlLinkProgram renderShaderProgram] g) in
  if negb success
  then emit [Cerr "Error linking render shader program:"] g
  else g.

(** Initialize Particles (lines 132-151). *)
Definition initParticles (n : nat) (p0 v0 : vec3) (env : Env) (g : GL) : GL :=
  let initialPositions := replicate n p0 in
  let g := set_particleBuffer (Some (initParticles_store n p0 v0 (junk env))) g in
  let g := emit [GlBufferData (n * sizeof_vec3 * 2);
                 GlBufferSubData 0 (n * sizeof_vec3);
                 GlBufferSubData (n * sizeof_vec3) (n * sizeof_vec3)] g in
  emit (map (fun i => Cout_particle i (default origin (initialPositions !! i)))
            (seq 0 (Nat.min 10 n))) g.

(** Initialize OpenGL (lines 154-164). *)
Definition initOpenGL (n : nat) (p0 v0 : vec3) (env : Env) (g : GL) : GL :=
  let g := initComputeShader env g in
  let g := initRenderShader env g in
  let g := initParticles n p0 v0 env g in
  emit [GlBindVertexArray] g.

Definition zero_vec4 : vec4 := Vec4 F32.zero F32.zero F32.zero F32.zero.

(** A context right after its creation: no program, no data store, nothing
    drawn. *)
Definition fresh_context : GL :=
  MkGL (Some []) false false None F32.zero
       (Mat4 zero_vec4 zero_vec4 zero_vec4 zero_vec4) [] [].

(** What a run of the process leaves behind. *)
Record Run := MkRun {
  exit_code : Z;
  output : list call;
  final : option Driver
}.

(** Main Function (lines 198-234), for a particle count [n] and uniform
    initial values [p0], [v0]. *)
Definition main_with (n : nat) (p0 v0 : vec3) (env : Env) (frames : list Frame) : Run :=
  if negb (glfwInit_ok env)
  then MkRun (-1) [Cerr "Failed to initialize GLFW"] None
  else if negb (window_ok env)
  then MkRun (-1) [Cerr "Failed to create GLFW window"; GlfwTerminate] None
  else
    let g := initOpenGL n p0 v0 env fresh_context in
    let d := run_loop n (camera env) frames (MkDriver (startTime env) g) in
    MkRun 0 (issued (gl d) ++ [GlfwTerminate]) (Some d).

(** The program as written. *)
Definition main (env : Env) (frames : list Frame) : Run :=
  main_with MAX_PARTICLES origin default_velocity env frames.

(** ** Predicates of the statements *)

(** No slot holds an infinity or a NaN. *)
Definition all_finite (b : store) : Prop := Forall (fun a => F32.is_finite a = true) b.

(** The current program, if any, is a linked one: true of a fresh context
    and kept by every command. *)
Definition current_program_linked (g : GL) : Prop :=
  forall p, currentProgram g = Some p -> linked p g = true.

(** Every record the dispatch for [n] particles visits lies inside the data
    store (sizes in bytes). *)
Definition records_in_store (n : nat) (b : store) : Prop :=
  n / 256 * local_size_x * Particle_stride <= length b * sizeof_float.

(** All [n] particles of the host's layout hold one position and one
    velocity. *)
Definition uniform_particles (n : nat) (b : store) : Prop :=
  exists p v, forall i, i < n -> host_position b i = Some p /\ host_velocity n b i = Some v.

(** The states of the frame loop of a run. *)
Inductive reachable (n : nat) (p0 v0 : vec3) (env : Env) : Driver -> Prop :=
| reachable_init :
    reachable n p0 v0 env (MkDriver (startTime env) (initOpenGL n p0 v0 env fresh_context))
| reachable_frame d f :
    reachable n p0 v0 env d -> reachable n p0 v0 env (loop_body n (camera env) d f).

Definition is_Cerr (c : call) : bool :=
  match c with Cerr _ => true | _ => false end.
Definition is_dispatch (c : call) : bool :=
  match c with GlDispatchCompute _ => true | _ => false end.
Definition is_barrier (c : call) : bool :=
  match c with GlMemoryBarrier => true | _ => false end.
Definition is_draw (c : call) : bool :=
  match c with GlDrawArrays _ _ => true | _ => false end.

Definition count (p : call -> bool) (cs : list call) : nat :=
  length (List.filter p cs).

(** Within the commands of one frame: a barrier that comes after every
    dispatch and before the draw. *)
Definition barrier_between_dispatch_and_draw (cs : list call) : Prop :=
  exists pre post,
    cs = pre ++ GlMemoryBarrier :: post
    /\ existsb is_draw pre = false
    /\ existsb is_dispatch post = false
    /\ existsb is_draw post = true.

(** The commands of the compute step and of the display, as issued. *)
Definition step_calls (n : nat) (deltaTime : float) : list call :=
  [GlUseProgram computeShaderProgram; GlUniform1f "deltaTime" deltaTime;
   GlDispatchCompute (n / 256); GlMemoryBarrier].

Definition display_calls (n : nat) (camera : mat4) : list call :=
  [GlClear; GlUseProgram renderShaderProgram;
   GlUniformMatrix4fv "modelViewProjection" camera; GlBindVertexArray;
   GlDrawArrays 0 n; GlfwSwapBuffers; GlfwPollEvents].

(** The time of the tick before the one that follows [frames]. *)
Definition previous_tick_time (start : float) (frames : list Frame) : float :=
  default start (last (map currentTime frames)).

(** The commands of the iterations over [frames], the previous tick being
    at time [last]. *)
Fixpoint loop_calls (n : nat) (camera : mat4) (last : float) (frames : list Frame) : list call :=
  match frames with
  | [] => []
  | f :: rest =>
      ((if frame_paused f then []
        else step_calls n (F32.mul (F32.sub (currentTime f) last) (frame_simulationSpeed f)))
       ++ display_calls n camera)
      ++ loop_calls n camera (currentTime f) rest
  end.

(** What startup writes to the error stream, in order. *)
Definition startup_diagnostics (env : Env) : list call :=
  (if compute_compile_status env then [] else [Cerr "Error compiling Compute shader:"])
  ++ (if compute_compile_status env && compute_link_status env then []
      else [Cerr "Error linking compute shader program:"])
  ++ (if vertex_compile_status env then [] else [Cerr "Error compiling Vertex shader:"])
  ++ (if fragment_compile_status env then [] else [Cerr "Error compiling Fragment shader:"])
  ++ (if vertex_compile_status env && fragment_compile_status env && render_link_status env
      then [] else [Cerr "Error linking render shader program:"]).

(** The state in which the frame loop starts. *)
Definition initial_driver (n : nat) (p0 v0 : vec3) (env : Env) : Driver :=
  MkDriver (startTime env) (initOpenGL n p0 v0 env fresh_context).

Definition running (f : Frame) : bool := negb (frame_paused f).

(** ** Test fixtures *)

Definition F32_1_5 : float := S754_finite false 12582912 (-23).
Definition F32_minus_one : float := S754_finite true 8388608 (-23).

Definition identity_mat4 : mat4 :=
  Mat4 (Vec4 F32.one F32.zero F32.zero F32.zero)
       (Vec4 F32.zero F32.one F32.zero F32.zero)
       (Vec4 F32.zero F32.zero F32.one F32.zero)
       (Vec4 F32.zero F32.zero F32.zero F32.one).

(** A platform on which everything succeeds; the clock starts at 0. *)
Definition good_env : Env :=
  MkEnv true true true true true true true (fun _ => S754_nan) identity_mat4 F32.zero.

(** A platform whose compiler refuses the compute shader. *)
Definition bad_compiler_env : Env :=
  MkEnv true true false true true true true (fun _ => S754_nan) identity_mat4 F32.zero.

(** A running frame at time [t] with the globals at their initial values. *)
Definition running_frame (t : float) : Frame := MkFrame t paused simulationSpeed.
Definition paused_frame (t : float) : Frame := MkFrame t true simulationSpeed.

(** Three steps of [delta_time = 0.5] at speed 1. *)
Definition three_half_steps : list Frame :=
  [running_frame F32.half; running_frame F32.one; running_frame F32_1_5].

Definition unit_x : vec3 := Vec3 F32.one F32.zero F32.zero.

(** The store a run ends with. *)
Definition final_store (r : Run) : option store :=
  d ← final r; particleBuffer (gl d).

(** ** Notions of the further properties *)

Definition is_terminate (c : call) : bool :=
  match c with GlfwTerminate => true | _ => false end.
Definition is_Cout (c : call) : bool :=
  match c with Cout_particle _ _ => true | _ => false end.

(** The time steps the running frames among [frames] hand to the kernel, the
    previous tick being at time [last]: a paused frame hands none over but
    moves the time base all the same. *)
Fixpoint step_times (last : float) (frames : list Frame) : list float :=
  match frames with
  | [] => []
  | f :: rest =>
      (if frame_paused f then []
       else [F32.mul (F32.sub (currentTime f) last) (frame_simulationSpeed f)])
      ++ step_times (currentTime f) rest
  end.

(** A position carried through the time steps [dts] at velocity [v], one
    kernel update after the other. *)
Definition advance (v : vec3) (p : vec3) (dts : list float) : vec3 :=
  foldl (fun q dt => vec3_add q (vec3_scale v dt)) p dts.

(** What one frame writes to the framebuffer after clearing it. *)
Definition frame_image (n : nat) (camera : mat4) (render_ok : bool) : fb_write :=
  if render_ok
  then FbPoints (replicate n (vertexShader_main camera current_attribute0)) fragmentShader_main
  else FbUndefined.

(** A store of two kernel records, the padding slots holding NaN:
    record 0 at (0, 0, 0) with velocity (1, 0, 0),
    record 1 at (1, 1.5, 0) with velocity (0, 0.5, 0). *)
Definition two_records : store :=
  [F32.zero; F32.zero; F32.zero; S754_nan; F32.one; F32.zero; F32.zero; S754_nan;
   F32.one; F32_1_5; F32.zero; S754_nan; F32.zero; F32.half; F32.zero; S754_nan].

(** Every dispatch in a sequence of commands is directly followed by a
    memory barrier. *)
Fixpoint barrier_after_each_dispatch (cs : list call) : bool :=
  match cs with
  | [] => true
  | GlDispatchCompute _ :: rest =>
      match rest with
      | GlMemoryBarrier :: _ => barrier_after_each_dispatch rest
      | _ => false
      end
  | _ :: rest => barrier_after_each_dispatch rest
  end.

(** * Properties *)

Example cst_0_01_is_rounded_hundredth :
  F32.div (F32.of_Z 1) (F32.of_Z 100) = F32.cst_0_01.
Proof. vm_compute. reflexivity. Qed.

Example one_is_of_Z : F32.of_Z 1 = F32.one.
Proof. vm_compute. reflexivity. Qed.

Example half_steps_add_up :
  F32.add (F32.add F32.half F32.half) F32.half = F32_1_5
  /\ F32.sub F32.one F32.half = F32.half
  /\ F32.sub F32_1_5 F32.one = F32.half.
Proof. vm_compute. repeat split. Qed.

Example initParticles_store_2 :
  initParticles_store 2 origin default_velocity (fun _ => S754_nan)
  = [F32.zero; F32.zero; F32.zero; F32.zero; F32.zero; F32.zero;
     F32.cst_0_01; F32.zero; F32.zero; F32.cst_0_01; F32.zero; F32.zero].
Proof. vm_compute. reflexivity. Qed.

(** ** The dispatch extent *)

Lemma invocation_ids_length g : length (invocation_ids g) = g * local_size_x.
Proof. unfold invocation_ids. apply length_seq. Qed.

Lemma no_group_below_256 n : n < 256 -> n / 256 = 0.
Proof. intros H. apply Nat.div_small. exact H. Qed.

(** The dispatch never covers more than [n] ids, and fewer than [n] as soon
    as [n] is not a multiple of the group size. *)
Lemma dispatch_extent_rounds_down n :
  length (invocation_ids (n / 256)) <= n
  /\ (n mod 256 <> 0 -> length (invocation_ids (n / 256)) < n).
Proof.
  rewrite invocation_ids_length. unfold local_size_x.
  pose proof (Nat.div_mod_eq n 256) as E. split; [lia|]. intros Hm. lia.
Qed.

Lemma elem_of_invocation_ids g id :
  id ∈ invocation_ids g <-> id < g * local_size_x.
Proof.
  unfold invocation_ids. rewrite elem_of_seq. lia.
Qed.

Lemma updates_received_0 i : updates_received 0 i = 0.
Proof. reflexivity. Qed.

Lemma count_in_seq i m :
  length (filter (fun id => id = i) (seq 0 m)) = if decide (i < m) then 1 else 0.
Proof.
  induction m as [|m IH]; [reflexivity|].
  rewrite seq_S, filter_app, length_app, IH. cbn [Nat.add filter list_filter].
  repeat case_decide; cbn [length]; lia.
Qed.

(** An id receives one update if it lies below the dispatch extent and none
    otherwise. *)
Lemma updates_received_eq g i :
  updates_received g i = if decide (i < g * local_size_x) then 1 else 0.
Proof. unfold updates_received, invocation_ids. apply count_in_seq. Qed.

(** The last particle is updated exactly when the count is a multiple of the
    group size. *)
Lemma last_particle_updated n :
  0 < n ->
  updates_received (n / 256) (n - 1) = if decide (n mod 256 = 0) then 1 else 0.
Proof.
  intros Hn. rewrite updates_received_eq. unfold local_size_x.
  pose proof (Nat.div_mod_eq n 256) as E.
  pose proof (Nat.mod_upper_bound n 256) as U.
  repeat case_decide; lia.
Qed.

(** ** Frame conditions of the GL commands *)

Lemma particleBuffer_emit cs g : particleBuffer (emit cs g) = particleBuffer g.
Proof. reflexivity. Qed.

Lemma particleBuffer_write_framebuffer w g :
  particleBuffer (write_framebuffer w g) = particleBuffer g.
Proof. reflexivity. Qed.

Lemma bind_run_no_invocations (ob : option store) dt :
  ob ≫= run_invocations dt [] = ob.
Proof. destruct ob; reflexivity. Qed.

Lemma particleBuffer_glDispatchCompute_0 g :
  particleBuffer (glDispatchCompute 0 g) = particleBuffer g.
Proof.
  unfold glDispatchCompute. change (invocation_ids 0) with (@nil nat).
  destruct (currentProgram g) as [[|]|]; simpl; auto.
  destruct (particleBuffer g); reflexivity.
Qed.

Lemma particleBuffer_glUseProgram p g :
  particleBuffer (glUseProgram p g) = particleBuffer g.
Proof. unfold glUseProgram. destruct (linked p g); reflexivity. Qed.

Lemma particleBuffer_glUniform1f v g :
  particleBuffer (glUniform1f_deltaTime v g) = particleBuffer g.
Proof. unfold glUniform1f_deltaTime. destruct (computeLinked g); reflexivity. Qed.

Lemma particleBuffer_glUniformMatrix4fv m g :
  particleBuffer (glUniformMatrix4fv_modelViewProjection m g) = particleBuffer g.
Proof.
  unfold glUniformMatrix4fv_modelViewProjection. destruct (renderLinked g); reflexivity.
Qed.

(** Below one full group the step leaves the store as it is. *)
Lemma particleBuffer_runComputeShader_small n dt g :
  n < 256 -> particleBuffer (runComputeShader n dt g) = particleBuffer g.
Proof.
  intros Hn. unfold runComputeShader, glMemoryBarrier. rewrite (no_group_below_256 n Hn).
  rewrite particleBuffer_emit, particleBuffer_glDispatchCompute_0, particleBuffer_glUniform1f.
  apply particleBuffer_glUseProgram.
Qed.

Lemma particleBuffer_renderParticles n mvp g :
  particleBuffer (renderParticles n mvp g) = particleBuffer g.
Proof.
  unfold renderParticles, glDrawArrays_points.
  rewrite particleBuffer_emit, particleBuffer_write_framebuffer, particleBuffer_emit.
  rewrite particleBuffer_glUniformMatrix4fv. apply particleBuffer_glUseProgram.
Qed.

Lemma particleBuffer_display n cam g :
  particleBuffer (display n cam g) = particleBuffer g.
Proof.
  unfold display, glClear. rewrite particleBuffer_emit, particleBuffer_renderParticles.
  reflexivity.
Qed.

(** ** The kernel on the data store *)

Lemma position_slot_eq id : position_slot id = 8 * id.
Proof.
  unfold position_slot, Particle_stride, Particle_position, sizeof_float.
  replace (id * 32 + 0) with ((8 * id) * 4) by lia. apply Nat.div_mul. lia.
Qed.

Lemma velocity_slot_eq id : velocity_slot id = 8 * id + 4.
Proof.
  unfold velocity_slot, Particle_stride, Particle_velocity, sizeof_float.
  replace (id * 32 + 16) with ((8 * id + 4) * 4) by lia. apply Nat.div_mul. lia.
Qed.

Lemma read_vec3_Some (b : store) s v :
  read_vec3 b s = Some v <->
  b !! s = Some (vx v) /\ b !! (s + 1) = Some (vy v) /\ b !! (s + 2) = Some (vz v).
Proof.
  unfold read_vec3. destruct v as [x y z]. simpl.
  destruct (b !! s), (b !! (s + 1)), (b !! (s + 2)); simpl;
    (split; [intros H; try discriminate; injection H as -> -> ->; auto
            |intros (H0 & H1 & H2); try discriminate; congruence]).
Qed.

Lemma read_vec3_defined (b : store) s :
  s + 2 < length b -> is_Some (read_vec3 b s).
Proof.
  intros H. unfold read_vec3.
  destruct (lookup_lt_is_Some_2 b s) as [x ->]; [lia|].
  destruct (lookup_lt_is_Some_2 b (s + 1)) as [y ->]; [lia|].
  destruct (lookup_lt_is_Some_2 b (s + 2)) as [z ->]; [lia|].
  simpl. eauto.
Qed.

Lemma read_vec3_ext (b b' : store) s :
  b' !! s = b !! s -> b' !! (s + 1) = b !! (s + 1) -> b' !! (s + 2) = b !! (s + 2) ->
  read_vec3 b' s = read_vec3 b s.
Proof. unfold read_vec3. intros -> -> ->. reflexivity. Qed.

Lemma length_write_vec3 (b : store) s v : length (write_vec3 b s v) = length b.
Proof. unfold write_vec3. rewrite !length_insert. reflexivity. Qed.

Lemma lookup_write_vec3_ne (b : store) s v k :
  k <> s -> k <> s + 1 -> k <> s + 2 -> write_vec3 b s v !! k = b !! k.
Proof.
  intros H0 H1 H2. unfold write_vec3.
  rewrite !list_lookup_insert_ne by lia. reflexivity.
Qed.

Lemma read_write_vec3 (b : store) s v :
  s + 2 < length b -> read_vec3 (write_vec3 b s v) s = Some v.
Proof.
  intros H. apply read_vec3_Some. unfold write_vec3. repeat split.
  - rewrite !list_lookup_insert_ne by lia. apply list_lookup_insert_eq. lia.
  - rewrite list_lookup_insert_ne by lia. apply list_lookup_insert_eq.
    rewrite length_insert. lia.
  - apply list_lookup_insert_eq. rewrite !length_insert. lia.
Qed.

Lemma computeShader_main_Some dt id b b' :
  computeShader_main dt id b = Some b' ->
  exists position velocity,
    particle_position b id = Some position
    /\ particle_velocity b id = Some velocity
    /\ b' = write_vec3 b (8 * id) (vec3_add position (vec3_scale velocity dt)).
Proof.
  unfold computeShader_main. intros H.
  destruct (particle_velocity b id) as [vel|]; [|discriminate].
  destruct (particle_position b id) as [pos|]; [|discriminate].
  simpl in H. injection H as <-. rewrite position_slot_eq. eauto.
Qed.

Lemma computeShader_main_defined dt id (b : store) :
  8 * id + 6 < length b -> is_Some (computeShader_main dt id b).
Proof.
  intros H. unfold computeShader_main, particle_velocity, particle_position.
  destruct (read_vec3_defined b (velocity_slot id)) as [vel ->];
    [rewrite velocity_slot_eq; lia|].
  destruct (read_vec3_defined b (position_slot id)) as [pos ->];
    [rewrite position_slot_eq; lia|].
  simpl. eauto.
Qed.

(** An invocation writes the three position slots of its record and nothing
    else. *)
Lemma computeShader_main_frame dt id b b' :
  computeShader_main dt id b = Some b' ->
  length b' = length b
  /\ forall k, k <> 8 * id -> k <> 8 * id + 1 -> k <> 8 * id + 2 -> b' !! k = b !! k.
Proof.
  intros H. destruct (computeShader_main_Some _ _ _ _ H) as (pos & vel & _ & _ & ->).
  split; [apply length_write_vec3|]. intros k. apply lookup_write_vec3_ne.
Qed.

Lemma run_invocations_frame dt ids : forall b b',
  run_invocations dt ids b = Some b' ->
  length b' = length b
  /\ forall k, (forall id, id ∈ ids -> k <> 8 * id /\ k <> 8 * id + 1 /\ k <> 8 * id + 2) ->
               b' !! k = b !! k.
Proof.
  induction ids as [|id rest IH]; intros b b' H; simpl in H.
  - injection H as <-. auto.
  - destruct (computeShader_main dt id b) as [b1|] eqn:E1; [|discriminate].
    simpl in H. destruct (IH _ _ H) as [L1 F1].
    destruct (computeShader_main_frame _ _ _ _ E1) as [L0 F0].
    split; [congruence|]. intros k Hk.
    rewrite F1 by (intros j Hj; apply Hk; right; exact Hj).
    destruct (Hk id) as (? & ? & ?); [left|]. auto.
Qed.

Lemma run_invocations_defined dt ids : forall b : store,
  (forall id, id ∈ ids -> 8 * id + 6 < length b) ->
  is_Some (run_invocations dt ids b).
Proof.
  induction ids as [|id rest IH]; intros b H; simpl; [eauto|].
  destruct (computeShader_main_defined dt id b) as [b1 E1]; [apply H; left|].
  rewrite E1. simpl. apply IH. intros j Hj.
  destruct (computeShader_main_frame _ _ _ _ E1) as [-> _]. apply H. right. exact Hj.
Qed.

(** No invocation writes the velocity field of any record. *)
Lemma run_invocations_particle_velocity dt ids b b' :
  run_invocations dt ids b = Some b' ->
  forall id, particle_velocity b' id = particle_velocity b id.
Proof.
  intros H id. destruct (run_invocations_frame _ _ _ _ H) as [_ F].
  unfold particle_velocity. rewrite velocity_slot_eq.
  apply read_vec3_ext; apply F; intros j _; lia.
Qed.

(** ** The order of the invocations does not matter *)

Lemma write_vec3_commute (b : store) s s' v v' :
  s + 2 < s' \/ s' + 2 < s ->
  write_vec3 (write_vec3 b s v) s' v' = write_vec3 (write_vec3 b s' v') s v.
Proof.
  intros H. unfold write_vec3. apply list_eq. intros k.
  rewrite !list_lookup_insert, !length_insert.
  repeat case_decide; try reflexivity; lia.
Qed.

Lemma computeShader_main_after_write dt i j (b : store) w :
  i <> j ->
  computeShader_main dt j (write_vec3 b (8 * i) w)
  = (fun b' => write_vec3 b' (8 * i) w) <$> computeShader_main dt j b.
Proof.
  intros Hij. unfold computeShader_main, particle_velocity, particle_position.
  rewrite velocity_slot_eq, position_slot_eq.
  rewrite (read_vec3_ext b (write_vec3 b (8 * i) w) (8 * j + 4))
    by (apply lookup_write_vec3_ne; lia).
  rewrite (read_vec3_ext b (write_vec3 b (8 * i) w) (8 * j))
    by (apply lookup_write_vec3_ne; lia).
  destruct (read_vec3 b (8 * j + 4)) as [vel|]; [|reflexivity].
  destruct (read_vec3 b (8 * j)) as [pos|]; [|reflexivity].
  cbn [fmap option_fmap option_map mbind option_bind]. f_equal.
  apply write_vec3_commute. lia.
Qed.

Lemma computeShader_main_commute dt i j (b : store) :
  i <> j ->
  computeShader_main dt i b ≫= computeShader_main dt j
  = computeShader_main dt j b ≫= computeShader_main dt i.
Proof.
  intros Hij.
  destruct (computeShader_main dt i b) as [bi|] eqn:Ei;
    destruct (computeShader_main dt j b) as [bj|] eqn:Ej;
    cbn [mbind option_bind].
  - destruct (computeShader_main_Some _ _ _ _ Ei) as (pi & vi & _ & _ & ->).
    destruct (computeShader_main_Some _ _ _ _ Ej) as (pj & vj & _ & _ & ->).
    rewrite !computeShader_main_after_write by auto. rewrite Ei, Ej.
    cbn [fmap option_fmap option_map]. f_equal. apply write_vec3_commute. lia.
  - destruct (computeShader_main_Some _ _ _ _ Ei) as (pi & vi & _ & _ & ->).
    rewrite computeShader_main_after_write by auto. rewrite Ej. reflexivity.
  - destruct (computeShader_main_Some _ _ _ _ Ej) as (pj & vj & _ & _ & ->).
    rewrite computeShader_main_after_write by auto. rewrite Ei. reflexivity.
  - reflexivity.
Qed.

Lemma run_invocations_cons dt id rest (b : store) :
  run_invocations dt (id :: rest) b
  = computeShader_main dt id b ≫= run_invocations dt rest.
Proof. reflexivity. Qed.

(** Any order of distinct ids gives the same store: the sequential run stands
    for the parallel dispatch. *)
Lemma run_invocations_order dt ids ids' :
  ids ≡ₚ ids' -> NoDup ids -> forall b, run_invocations dt ids b = run_invocations dt ids' b.
Proof.
  induction 1 as [|x l l' HP IH|x y l|l l' l'' HP1 IH1 HP2 IH2]; intros ND b.
  - reflexivity.
  - apply NoDup_cons in ND as [_ ND]. rewrite !run_invocations_cons.
    destruct (computeShader_main dt x b); cbn [mbind option_bind]; auto.
  - apply NoDup_cons in ND as [Hy _].
    assert (y <> x) by (intros ->; apply Hy; left).
    rewrite !run_invocations_cons.
    pose proof (computeShader_main_commute dt y x b H) as C.
    destruct (computeShader_main dt y b) as [by'|] eqn:Ey;
      destruct (computeShader_main dt x b) as [bx|] eqn:Ex;
      cbn [mbind option_bind] in *; rewrite ?run_invocations_cons.
    + rewrite C. reflexivity.
    + rewrite C. reflexivity.
    + rewrite <- C. reflexivity.
    + reflexivity.
  - rewrite IH1 by exact ND. apply IH2. rewrite <- HP1. exact ND.
Qed.

Lemma NoDup_invocation_ids g : NoDup (invocation_ids g).
Proof. apply NoDup_seq. Qed.

(** ** binary32 facts used below *)

Lemma same_value_refl a : F32.same_value a a.
Proof. left. reflexivity. Qed.

Lemma same_value_trans a b c :
  F32.same_value a b -> F32.same_value b c -> F32.same_value a c.
Proof.
  unfold F32.same_value. intros [->|[Ha Hb]] [->|[Hb' Hc]]; auto.
Qed.

Lemma same_value_finite a b :
  F32.same_value a b -> F32.is_finite a = true -> F32.is_finite b = true.
Proof.
  intros [->|[_ Hb]] H; [exact H|]. destruct b; simpl in *; congruence.
Qed.

Lemma mul_zero_is_zero v z :
  F32.is_finite v = true -> F32.is_zero z = true -> F32.is_zero (F32.mul v z) = true.
Proof. destruct v, z; simpl; intros; try discriminate; reflexivity. Qed.

Lemma add_zero_same_value p z :
  F32.is_zero z = true -> F32.same_value p (F32.add p z).
Proof.
  destruct z as [sz| | |]; try discriminate. intros _.
  destruct p as [sp|sp| |sp mp ep]; simpl.
  - right. destruct sp, sz; auto.
  - left. reflexivity.
  - left. reflexivity.
  - left. reflexivity.
Qed.

(** A finite elapsed time multiplied by a zero speed is a zero. *)
Lemma zero_speed_zero_step dt speed :
  F32.is_finite dt = true -> F32.is_zero speed = true ->
  F32.is_zero (F32.mul dt speed) = true.
Proof. apply mul_zero_is_zero. Qed.

(** ** Zero time step: no displacement *)

Lemma write_vec3_id (b : store) s v : read_vec3 b s = Some v -> write_vec3 b s v = b.
Proof.
  intros (H0 & H1 & H2)%read_vec3_Some. unfold write_vec3.
  rewrite (list_insert_id b s) by exact H0.
  rewrite (list_insert_id b (s + 1)) by exact H1.
  apply list_insert_id. exact H2.
Qed.

Lemma read_vec3_finite (b : store) s v :
  all_finite b -> read_vec3 b s = Some v ->
  F32.is_finite (vx v) = true /\ F32.is_finite (vy v) = true /\ F32.is_finite (vz v) = true.
Proof.
  intros Hf (H0 & H1 & H2)%read_vec3_Some. unfold all_finite in Hf.
  rewrite Forall_lookup in Hf.
  split; [|split]; eapply Hf; eassumption.
Qed.

Lemma computeShader_main_zero_step dt id b b' :
  F32.is_zero dt = true -> all_finite b ->
  computeShader_main dt id b = Some b' -> Forall2 F32.same_value b b'.
Proof.
  intros Hz Hf H.
  destruct (computeShader_main_Some _ _ _ _ H) as (pos & vel & Hp & Hv & ->).
  unfold particle_position in Hp. rewrite position_slot_eq in Hp.
  destruct (read_vec3_finite _ _ _ Hf Hv) as (Fx & Fy & Fz).
  rewrite <- (write_vec3_id b (8 * id) pos Hp) at 1.
  unfold write_vec3, vec3_add, vec3_scale. simpl.
  repeat apply Forall2_insert;
    try (apply add_zero_same_value, mul_zero_is_zero; assumption).
  apply Forall_Forall2_diag, Forall_forall. intros. apply same_value_refl.
Qed.

Lemma all_finite_same_value b b' :
  all_finite b -> Forall2 F32.same_value b b' -> all_finite b'.
Proof.
  intros Hf H2. unfold all_finite. eapply Forall2_Forall_r; [exact H2|].
  eapply Forall_impl; [exact Hf|]. simpl. intros a Ha y Hy.
  eapply same_value_finite; eauto.
Qed.

Lemma run_invocations_zero_step dt ids : forall b b',
  F32.is_zero dt = true -> all_finite b ->
  run_invocations dt ids b = Some b' -> Forall2 F32.same_value b b'.
Proof.
  induction ids as [|id rest IH]; intros b b' Hz Hf H; simpl in H.
  - injection H as <-. apply Forall_Forall2_diag, Forall_forall. intros.
    apply same_value_refl.
  - destruct (computeShader_main dt id b) as [b1|] eqn:E1; [|discriminate].
    simpl in H. pose proof (computeShader_main_zero_step _ _ _ _ Hz Hf E1) as S1.
    eapply Forall2_trans; [|exact S1|apply (IH b1 b' Hz)]; eauto using same_value_trans.
    eapply all_finite_same_value; eauto.
Qed.

(** ** The store built at startup *)

Lemma vector_data_replicate_S n v :
  vector_data (replicate (S n) v) = vx v :: vy v :: vz v :: vector_data (replicate n v).
Proof. reflexivity. Qed.

Lemma length_vector_data_replicate n v : length (vector_data (replicate n v)) = 3 * n.
Proof.
  induction n as [|n IH]; [reflexivity|].
  rewrite vector_data_replicate_S. simpl. rewrite IH. lia.
Qed.

Lemma read_vec3_shift3 x y z (l : store) k :
  read_vec3 (x :: y :: z :: l) (3 + k) = read_vec3 l k.
Proof. reflexivity. Qed.

Lemma read_vec3_replicate n v (rest : store) : forall i,
  i < n -> read_vec3 (vector_data (replicate n v) ++ rest) (3 * i) = Some v.
Proof.
  induction n as [|n IH]; intros i Hi; [lia|].
  rewrite vector_data_replicate_S. destruct i as [|i].
  - destruct v; reflexivity.
  - replace (3 * S i) with (3 + 3 * i) by lia.
    change ((vx v :: vy v :: vz v :: vector_data (replicate n v)) ++ rest)
      with (vx v :: vy v :: vz v :: (vector_data (replicate n v) ++ rest)).
    rewrite read_vec3_shift3. apply IH. lia.
Qed.

Lemma read_vec3_app_r (l1 l2 : store) k :
  read_vec3 (l1 ++ l2) (length l1 + k) = read_vec3 l2 k.
Proof.
  unfold read_vec3.
  rewrite !lookup_app_r by lia.
  replace (length l1 + k - length l1) with k by lia.
  replace (length l1 + k + 1 - length l1) with (k + 1) by lia.
  replace (length l1 + k + 2 - length l1) with (k + 2) by lia.
  reflexivity.
Qed.

Lemma vec3_slots n : n * sizeof_vec3 / sizeof_float = 3 * n.
Proof.
  unfold sizeof_vec3, sizeof_float. replace (n * 12) with ((3 * n) * 4) by lia.
  apply Nat.div_mul. lia.
Qed.

Lemma vec3_slots2 n i : (n * sizeof_vec3 + i * sizeof_vec3) / sizeof_float = 3 * n + 3 * i.
Proof.
  unfold sizeof_vec3, sizeof_float.
  replace (n * 12 + i * 12) with ((3 * n + 3 * i) * 4) by lia.
  apply Nat.div_mul. lia.
Qed.

Lemma length_glBufferData size junk :
  length (glBufferData size junk) = size / sizeof_float.
Proof. unfold glBufferData. rewrite length_map, length_seq. reflexivity. Qed.

(** The upload fills the whole data store: nothing of its undefined initial
    contents is left. *)
Lemma initParticles_store_eq n p0 v0 junk :
  initParticles_store n p0 v0 junk
  = vector_data (replicate n p0) ++ vector_data (replicate n v0).
Proof.
  unfold initParticles_store.
  set (b0 := glBufferData (n * sizeof_vec3 * 2) junk).
  assert (L0 : length b0 = 6 * n).
  { unfold b0. rewrite length_glBufferData. unfold sizeof_vec3, sizeof_float.
    replace (n * 12 * 2) with ((6 * n) * 4) by lia. apply Nat.div_mul. lia. }
  pose proof (length_vector_data_replicate n p0) as Lp.
  pose proof (length_vector_data_replicate n v0) as Lv.
  unfold glBufferSubData at 2. rewrite L0.
  destruct (decide (0 + n * sizeof_vec3 <= 6 * n * sizeof_float)) as [_|N];
    [|unfold sizeof_vec3, sizeof_float in N; lia].
  unfold glBufferSubData. rewrite length_inserts, L0.
  destruct (decide (n * sizeof_vec3 + n * sizeof_vec3 <= 6 * n * sizeof_float)) as [_|N];
    [|unfold sizeof_vec3, sizeof_float in N; lia].
  rewrite vec3_slots. change (0 / sizeof_float) with 0.
  rewrite !take_ge by lia.
  apply list_eq. intros k.
  destruct (decide (k < 3 * n)) as [Hk|Hk].
  - rewrite list_lookup_inserts_lt by lia.
    rewrite list_lookup_inserts by lia.
    rewrite lookup_app_l by lia. f_equal. lia.
  - destruct (decide (k < 6 * n)) as [Hk'|Hk'].
    + rewrite list_lookup_inserts by (rewrite ?length_inserts; lia).
      rewrite lookup_app_r by lia. f_equal. lia.
    + rewrite !lookup_ge_None_2; [reflexivity| |].
      * rewrite length_app. lia.
      * rewrite !length_inserts. lia.
Qed.

Lemma host_position_init n p0 v0 junk i :
  i < n -> host_position (initParticles_store n p0 v0 junk) i = Some p0.
Proof.
  intros Hi. unfold host_position. rewrite vec3_slots, initParticles_store_eq.
  apply read_vec3_replicate. exact Hi.
Qed.

Lemma host_velocity_init n p0 v0 junk i :
  i < n -> host_velocity n (initParticles_store n p0 v0 junk) i = Some v0.
Proof.
  intros Hi. unfold host_velocity. rewrite vec3_slots2, initParticles_store_eq.
  rewrite <- (length_vector_data_replicate n p0), read_vec3_app_r.
  rewrite <- (app_nil_r (vector_data (replicate n v0))).
  apply read_vec3_replicate. exact Hi.
Qed.

Lemma uniform_particles_init n p0 v0 junk :
  uniform_particles n (initParticles_store n p0 v0 junk).
Proof.
  exists p0, v0. intros i Hi.
  split; [apply host_position_init|apply host_velocity_init]; exact Hi.
Qed.

(** ** What the commands issue *)

Lemma issued_emit cs g : issued (emit cs g) = issued g ++ cs.
Proof. reflexivity. Qed.

Lemma issued_glUseProgram p g : issued (glUseProgram p g) = issued g ++ [GlUseProgram p].
Proof. unfold glUseProgram. destruct (linked p g); reflexivity. Qed.

Lemma issued_glUniform1f v g :
  issued (glUniform1f_deltaTime v g) = issued g ++ [GlUniform1f "deltaTime" v].
Proof. unfold glUniform1f_deltaTime. destruct (computeLinked g); reflexivity. Qed.

Lemma issued_glUniformMatrix4fv m g :
  issued (glUniformMatrix4fv_modelViewProjection m g)
  = issued g ++ [GlUniformMatrix4fv "modelViewProjection" m].
Proof.
  unfold glUniformMatrix4fv_modelViewProjection. destruct (renderLinked g); reflexivity.
Qed.

Lemma issued_glDispatchCompute k g :
  issued (glDispatchCompute k g) = issued g ++ [GlDispatchCompute k].
Proof.
  unfold glDispatchCompute. destruct (currentProgram g) as [[|]|]; reflexivity.
Qed.

Lemma issued_runComputeShader n dt g :
  issued (runComputeShader n dt g) = issued g ++ step_calls n dt.
Proof.
  unfold runComputeShader, glMemoryBarrier, step_calls.
  rewrite issued_emit, issued_glDispatchCompute, issued_glUniform1f, issued_glUseProgram.
  rewrite <- !app_assoc. reflexivity.
Qed.

Lemma issued_renderParticles n mvp g :
  issued (renderParticles n mvp g)
  = issued g ++ [GlUseProgram renderShaderProgram;
                 GlUniformMatrix4fv "modelViewProjection" mvp; GlBindVertexArray;
                 GlDrawArrays 0 n].
Proof.
  unfold renderParticles, glDrawArrays_points.
  rewrite issued_emit. change (issued (write_framebuffer ?w ?x)) with (issued x).
  rewrite issued_emit, issued_glUniformMatrix4fv, issued_glUseProgram.
  rewrite <- !app_assoc. reflexivity.
Qed.

Lemma issued_display n cam g : issued (display n cam g) = issued g ++ display_calls n cam.
Proof.
  unfold display, glClear, display_calls.
  rewrite issued_emit, issued_renderParticles, issued_emit.
  change (issued (write_framebuffer FbClear g)) with (issued g).
  rewrite <- !app_assoc. reflexivity.
Qed.

(** The commands of one iteration: the compute step unless paused, then the
    display. *)
Lemma issued_loop_body n cam d f :
  issued (gl (loop_body n cam d f))
  = issued (gl d)
    ++ (if frame_paused f then []
        else step_calls n (F32.mul (F32.sub (currentTime f) (lastTime d))
                                   (frame_simulationSpeed f)))
    ++ display_calls n cam.
Proof.
  unfold loop_body. cbn [gl]. rewrite issued_display.
  destruct (frame_paused f); cbn [negb].
  - reflexivity.
  - rewrite issued_runComputeShader, <- app_assoc. reflexivity.
Qed.

Lemma frame_calls_eq n cam d f :
  frame_calls n cam d f
  = (if frame_paused f then []
     else step_calls n (F32.mul (F32.sub (currentTime f) (lastTime d))
                                (frame_simulationSpeed f)))
    ++ display_calls n cam.
Proof. unfold frame_calls. rewrite issued_loop_body. apply drop_app_length. Qed.

Lemma lastTime_loop_body n cam d f : lastTime (loop_body n cam d f) = currentTime f.
Proof. reflexivity. Qed.

(** ** The link status and the current program *)

Lemma links_glUseProgram p g :
  computeLinked (glUseProgram p g) = computeLinked g
  /\ renderLinked (glUseProgram p g) = renderLinked g
  /\ currentProgram (glUseProgram p g)
     = if linked p g then Some p else currentProgram g.
Proof. unfold glUseProgram. destruct (linked p g) eqn:E; simpl; auto. Qed.

Lemma links_glUniform1f v g :
  computeLinked (glUniform1f_deltaTime v g) = computeLinked g
  /\ renderLinked (glUniform1f_deltaTime v g) = renderLinked g
  /\ currentProgram (glUniform1f_deltaTime v g) = currentProgram g.
Proof. unfold glUniform1f_deltaTime. destruct (computeLinked g) eqn:E; simpl; auto. Qed.

Lemma links_glUniformMatrix4fv m g :
  computeLinked (glUniformMatrix4fv_modelViewProjection m g) = computeLinked g
  /\ renderLinked (glUniformMatrix4fv_modelViewProjection m g) = renderLinked g
  /\ currentProgram (glUniformMatrix4fv_modelViewProjection m g) = currentProgram g.
Proof.
  unfold glUniformMatrix4fv_modelViewProjection.
  destruct (renderLinked g) eqn:E; simpl; auto.
Qed.

Lemma links_glDispatchCompute k g :
  computeLinked (glDispatchCompute k g) = computeLinked g
  /\ renderLinked (glDispatchCompute k g) = renderLinked g
  /\ currentProgram (glDispatchCompute k g) = currentProgram g.
Proof.
  unfold glDispatchCompute.
  destruct (currentProgram g) as [[|]|] eqn:E; simpl; auto.
Qed.

Lemma links_runComputeShader n dt g :
  computeLinked (runComputeShader n dt g) = computeLinked g
  /\ renderLinked (runComputeShader n dt g) = renderLinked g
  /\ currentProgram (runComputeShader n dt g)
     = if computeLinked g then Some computeShaderProgram else currentProgram g.
Proof.
  unfold runComputeShader, glMemoryBarrier.
  set (g1 := glUseProgram computeShaderProgram g).
  set (g2 := glUniform1f_deltaTime dt g1).
  destruct (links_glUseProgram computeShaderProgram g) as (A1 & B1 & C1).
  destruct (links_glUniform1f dt g1) as (A2 & B2 & C2).
  destruct (links_glDispatchCompute (n / 256) g2) as (A3 & B3 & C3).
  change (computeLinked (emit ?c ?x)) with (computeLinked x).
  change (renderLinked (emit ?c ?x)) with (renderLinked x).
  change (currentProgram (emit ?c ?x)) with (currentProgram x).
  fold g1 in A1, B1, C1. fold g2 in A2, B2, C2.
  rewrite A3, B3, C3, A2, B2, C2, A1, B1, C1. auto.
Qed.

Lemma current_program_linked_runComputeShader n dt g :
  current_program_linked g -> current_program_linked (runComputeShader n dt g).
Proof.
  unfold current_program_linked. intros W p.
  destruct (links_runComputeShader n dt g) as (Ec & Er & Hcur).
  rewrite Hcur. destruct p; cbn [linked]; rewrite ?Ec, ?Er.
  - destruct (computeLinked g) eqn:E; auto. intros H. rewrite <- E. apply (W _ H).
  - destruct (computeLinked g); [discriminate|]. intros H. apply (W _ H).
Qed.

Lemma links_renderParticles n mvp g :
  computeLinked (renderParticles n mvp g) = computeLinked g
  /\ renderLinked (renderParticles n mvp g) = renderLinked g
  /\ currentProgram (renderParticles n mvp g)
     = if renderLinked g then Some renderShaderProgram else currentProgram g.
Proof.
  unfold renderParticles, glDrawArrays_points.
  set (g1 := glUseProgram renderShaderProgram g).
  destruct (links_glUseProgram renderShaderProgram g) as (A1 & B1 & C1).
  destruct (links_glUniformMatrix4fv mvp g1) as (A2 & B2 & C2).
  fold g1 in A1, B1, C1.
  change (computeLinked (emit ?c ?x)) with (computeLinked x).
  change (renderLinked (emit ?c ?x)) with (renderLinked x).
  change (currentProgram (emit ?c ?x)) with (currentProgram x).
  change (computeLinked (write_framebuffer ?c ?x)) with (computeLinked x).
  change (renderLinked (write_framebuffer ?c ?x)) with (renderLinked x).
  change (currentProgram (write_framebuffer ?c ?x)) with (currentProgram x).
  change (computeLinked (emit ?c ?x)) with (computeLinked x).
  change (renderLinked (emit ?c ?x)) with (renderLinked x).
  change (currentProgram (emit ?c ?x)) with (currentProgram x).
  rewrite A2, B2, C2, A1, B1, C1. auto.
Qed.

Lemma links_display n cam g :
  computeLinked (display n cam g) = computeLinked g
  /\ renderLinked (display n cam g) = renderLinked g
  /\ currentProgram (display n cam g)
     = if renderLinked g then Some renderShaderProgram else currentProgram g.
Proof.
  unfold display.
  change (computeLinked (emit ?c ?x)) with (computeLinked x).
  change (renderLinked (emit ?c ?x)) with (renderLinked x).
  change (currentProgram (emit ?c ?x)) with (currentProgram x).
  apply (links_renderParticles n cam (glClear g)).
Qed.

Lemma current_program_linked_display n cam g :
  current_program_linked g -> current_program_linked (display n cam g).
Proof.
  unfold current_program_linked. intros W p.
  destruct (links_display n cam g) as (Ec & Er & Hcur).
  rewrite Hcur. destruct p; cbn [linked]; rewrite ?Ec, ?Er.
  - destruct (renderLinked g); [discriminate|]. intros H. apply (W _ H).
  - destruct (renderLinked g) eqn:E; auto. intros H. rewrite <- E. apply (W _ H).
Qed.

Lemma current_program_linked_loop_body n cam d f :
  current_program_linked (gl d) -> current_program_linked (gl (loop_body n cam d f)).
Proof.
  intros W. unfold loop_body. cbn [gl]. apply current_program_linked_display.
  destruct (frame_paused f); cbn [negb]; auto using current_program_linked_runComputeShader.
Qed.

(** The store after one step: the kernel runs over the dispatched ids with
    the time step just set, if the compute program is usable at all. *)
Lemma particleBuffer_runComputeShader n dt g :
  current_program_linked g ->
  particleBuffer (runComputeShader n dt g)
  = if computeLinked g
    then particleBuffer g ≫= run_invocations dt (invocation_ids (n / 256))
    else particleBuffer g.
Proof.
  intros W. unfold runComputeShader, glMemoryBarrier.
  rewrite particleBuffer_emit. unfold glDispatchCompute at 1.
  rewrite particleBuffer_emit.
  destruct (links_glUseProgram computeShaderProgram g) as (A1 & _ & C1).
  destruct (links_glUniform1f dt (glUseProgram computeShaderProgram g)) as (_ & _ & C2).
  rewrite C2, C1. cbn [linked].
  assert (U : u_deltaTime (glUniform1f_deltaTime dt (glUseProgram computeShaderProgram g))
              = if computeLinked g then dt else u_deltaTime g).
  { unfold glUniform1f_deltaTime. rewrite A1. unfold glUseProgram. cbn [linked].
    destruct (computeLinked g); reflexivity. }
  destruct (computeLinked g) eqn:E.
  - cbn [particleBuffer set_particleBuffer]. rewrite U.
    rewrite particleBuffer_glUniform1f, particleBuffer_glUseProgram. reflexivity.
  - destruct (currentProgram g) as [[|]|] eqn:C;
      rewrite ?particleBuffer_glUniform1f, ?particleBuffer_glUseProgram; auto.
    pose proof (W _ C) as L. simpl in L. congruence.
Qed.

(** ** The frame loop *)

Lemma run_loop_cons n cam f fs d :
  run_loop n cam (f :: fs) d = run_loop n cam fs (loop_body n cam d f).
Proof. reflexivity. Qed.

Lemma run_loop_snoc n cam fs f d :
  run_loop n cam (fs ++ [f]) d = loop_body n cam (run_loop n cam fs d) f.
Proof. unfold run_loop. apply foldl_snoc. Qed.

Lemma particleBuffer_loop_body_paused n cam d f :
  frame_paused f = true ->
  particleBuffer (gl (loop_body n cam d f)) = particleBuffer (gl d).
Proof.
  intros P. unfold loop_body. cbn [gl]. rewrite particleBuffer_display, P. reflexivity.
Qed.

Lemma particleBuffer_loop_body_small n cam d f :
  n < 256 -> particleBuffer (gl (loop_body n cam d f)) = particleBuffer (gl d).
Proof.
  intros Hn. unfold loop_body. cbn [gl]. rewrite particleBuffer_display.
  destruct (frame_paused f); cbn [negb]; auto using particleBuffer_runComputeShader_small.
Qed.

Lemma default_last_cons (l : list float) : forall a x,
  default x (last (a :: l)) = default a (last l).
Proof.
  induction l as [|b l IH]; intros a x; [reflexivity|].
  change (last (a :: b :: l)) with (last (b :: l)). rewrite !IH. reflexivity.
Qed.

Lemma previous_tick_time_cons start f fs :
  previous_tick_time start (f :: fs) = previous_tick_time (currentTime f) fs.
Proof. unfold previous_tick_time. apply default_last_cons. Qed.

Lemma lastTime_run_loop n cam fs : forall d,
  lastTime (run_loop n cam fs d) = previous_tick_time (lastTime d) fs.
Proof.
  induction fs as [|f fs IH]; intros d; [reflexivity|].
  rewrite run_loop_cons, IH, previous_tick_time_cons. reflexivity.
Qed.

Lemma particleBuffer_run_loop_paused n cam fs : forall d,
  Forall (fun f => frame_paused f = true) fs ->
  particleBuffer (gl (run_loop n cam fs d)) = particleBuffer (gl d).
Proof.
  induction fs as [|f fs IH]; intros d H; [reflexivity|].
  inversion H as [|? ? Hf Hfs]; subst.
  rewrite run_loop_cons, IH by exact Hfs. apply particleBuffer_loop_body_paused, Hf.
Qed.

Lemma particleBuffer_run_loop_small n cam fs : forall d,
  n < 256 -> particleBuffer (gl (run_loop n cam fs d)) = particleBuffer (gl d).
Proof.
  induction fs as [|f fs IH]; intros d H; [reflexivity|].
  rewrite run_loop_cons, IH by exact H. apply particleBuffer_loop_body_small, H.
Qed.

Lemma issued_run_loop n cam fs : forall d,
  issued (gl (run_loop n cam fs d)) = issued (gl d) ++ loop_calls n cam (lastTime d) fs.
Proof.
  induction fs as [|f fs IH]; intros d.
  - simpl. rewrite app_nil_r. reflexivity.
  - rewrite run_loop_cons, IH, issued_loop_body, lastTime_loop_body.
    cbn [loop_calls]. rewrite <- !app_assoc. reflexivity.
Qed.

Lemma current_program_linked_run_loop n cam fs : forall d,
  current_program_linked (gl d) -> current_program_linked (gl (run_loop n cam fs d)).
Proof.
  induction fs as [|f fs IH]; intros d W; [exact W|].
  rewrite run_loop_cons. apply IH, current_program_linked_loop_body, W.
Qed.

Lemma count_app p cs cs' : count p (cs ++ cs') = count p cs + count p cs'.
Proof. unfold count. rewrite List.filter_app, length_app. reflexivity. Qed.

Lemma count_step_display n cam dt :
  count is_dispatch (step_calls n dt) = 1 /\ count is_dispatch (display_calls n cam) = 0
  /\ count is_draw (step_calls n dt) = 0 /\ count is_draw (display_calls n cam) = 1
  /\ List.filter is_Cerr (step_calls n dt) = [] /\ List.filter is_Cerr (display_calls n cam) = [].
Proof. repeat split. Qed.

Lemma count_loop_calls n cam fs : forall last,
  count is_dispatch (loop_calls n cam last fs) = length (List.filter running fs)
  /\ count is_draw (loop_calls n cam last fs) = length fs
  /\ List.filter is_Cerr (loop_calls n cam last fs) = [].
Proof.
  induction fs as [|f fs IH]; intros last; [repeat split|].
  destruct (IH (currentTime f)) as (I1 & I2 & I3).
  cbn [loop_calls List.filter length]. rewrite !count_app, !List.filter_app, I1, I2, I3.
  unfold running at 2. destruct (frame_paused f); cbn [negb]; repeat split.
Qed.

(** ** Startup *)

Lemma particleBuffer_initOpenGL n p0 v0 env g :
  particleBuffer (initOpenGL n p0 v0 env g) = Some (initParticles_store n p0 v0 (junk env)).
Proof. reflexivity. Qed.

Lemma currentProgram_initShaders env g :
  currentProgram (initRenderShader env (initComputeShader env g)) = currentProgram g.
Proof.
  unfold initRenderShader, initComputeShader, checkShaderCompilation.
  destruct (compute_compile_status env), (compute_link_status env),
    (vertex_compile_status env), (fragment_compile_status env), (render_link_status env);
    reflexivity.
Qed.

Lemma currentProgram_initOpenGL n p0 v0 env g :
  currentProgram (initOpenGL n p0 v0 env g) = currentProgram g.
Proof.
  unfold initOpenGL, initParticles.
  change (currentProgram (emit ?c ?x)) with (currentProgram x).
  change (currentProgram (emit ?c ?x)) with (currentProgram x).
  change (currentProgram (emit ?c ?x)) with (currentProgram x).
  change (currentProgram (set_particleBuffer ?c ?x)) with (currentProgram x).
  apply currentProgram_initShaders.
Qed.

Lemma current_program_linked_initial n p0 v0 env :
  current_program_linked (gl (initial_driver n p0 v0 env)).
Proof.
  unfold current_program_linked, initial_driver. cbn [gl]. intros p.
  rewrite currentProgram_initOpenGL. discriminate.
Qed.

Lemma issued_initShaders env :
  List.filter is_Cerr (issued (initRenderShader env (initComputeShader env fresh_context)))
  = startup_diagnostics env
  /\ count is_draw (issued (initRenderShader env (initComputeShader env fresh_context))) = 0
  /\ count is_dispatch (issued (initRenderShader env (initComputeShader env fresh_context))) = 0.
Proof.
  unfold initRenderShader, initComputeShader, checkShaderCompilation, startup_diagnostics.
  destruct (compute_compile_status env), (compute_link_status env),
    (vertex_compile_status env), (fragment_compile_status env), (render_link_status env);
    repeat split.
Qed.

Lemma filter_map_nil {A} (p : call -> bool) (f : A -> call) (l : list A) :
  (forall a, p (f a) = false) -> List.filter p (map f l) = [].
Proof.
  intros H. induction l as [|a l IH]; [reflexivity|]. simpl. rewrite H. exact IH.
Qed.

Lemma issued_initOpenGL n p0 v0 env :
  List.filter is_Cerr (issued (initOpenGL n p0 v0 env fresh_context)) = startup_diagnostics env
  /\ count is_draw (issued (initOpenGL n p0 v0 env fresh_context)) = 0
  /\ count is_dispatch (issued (initOpenGL n p0 v0 env fresh_context)) = 0.
Proof.
  destruct (issued_initShaders env) as (D & R & C).
  unfold initOpenGL, initParticles. rewrite !issued_emit.
  change (issued (set_particleBuffer ?c ?x)) with (issued x).
  unfold count in *. rewrite !List.filter_app, !length_app, D, R, C.
  rewrite !filter_map_nil by reflexivity. repeat split. rewrite !app_nil_r. reflexivity.
Qed.

(** With GLFW and the window available the run reaches the loop and ends
    with exit code 0, whatever else startup met. *)
Lemma main_with_ok n p0 v0 env frames :
  glfwInit_ok env = true -> window_ok env = true ->
  main_with n p0 v0 env frames
  = MkRun 0 (issued (gl (run_loop n (camera env) frames (initial_driver n p0 v0 env)))
             ++ [GlfwTerminate])
          (Some (run_loop n (camera env) frames (initial_driver n p0 v0 env))).
Proof. intros H1 H2. unfold main_with. rewrite H1, H2. reflexivity. Qed.

Lemma output_main_with n p0 v0 env frames :
  glfwInit_ok env = true -> window_ok env = true ->
  output (main_with n p0 v0 env frames)
  = issued (initOpenGL n p0 v0 env fresh_context)
    ++ loop_calls n (camera env) (startTime env) frames ++ [GlfwTerminate].
Proof.
  intros H1 H2. rewrite main_with_ok by assumption. cbn [output].
  rewrite issued_run_loop, <- app_assoc. reflexivity.
Qed.

Lemma run_counts n p0 v0 env frames :
  glfwInit_ok env = true -> window_ok env = true ->
  exit_code (main_with n p0 v0 env frames) = 0%Z
  /\ count is_dispatch (output (main_with n p0 v0 env frames)) = length (List.filter running frames)
  /\ count is_draw (output (main_with n p0 v0 env frames)) = length frames
  /\ List.filter is_Cerr (output (main_with n p0 v0 env frames)) = startup_diagnostics env.
Proof.
  intros H1 H2. rewrite output_main_with by assumption.
  rewrite main_with_ok by assumption. cbn [exit_code].
  destruct (issued_initOpenGL n p0 v0 env) as (D & R & C).
  destruct (count_loop_calls n (camera env) frames (startTime env)) as (L1 & L2 & L3).
  rewrite !count_app, !List.filter_app, D, R, C, L1, L2, L3.
  repeat split; try (cbn; lia). cbn. rewrite app_nil_r. reflexivity.
Qed.

(** ** Reachable states *)

Lemma reachable_current_program_linked n p0 v0 env d :
  reachable n p0 v0 env d -> current_program_linked (gl d).
Proof.
  induction 1 as [|d f _ IH].
  - apply current_program_linked_initial.
  - apply current_program_linked_loop_body, IH.
Qed.

Lemma reachable_store_small n p0 v0 env d :
  n < 256 -> reachable n p0 v0 env d ->
  particleBuffer (gl d) = Some (initParticles_store n p0 v0 (junk env)).
Proof.
  intros Hn. induction 1 as [|d f _ IH].
  - reflexivity.
  - rewrite particleBuffer_loop_body_small by exact Hn. exact IH.
Qed.

Lemma reachable_run_loop n p0 v0 env frames : forall d,
  reachable n p0 v0 env d -> reachable n p0 v0 env (run_loop n (camera env) frames d).
Proof.
  induction frames as [|f fs IH]; intros d R; [exact R|].
  rewrite run_loop_cons. apply IH. constructor. exact R.
Qed.

(** * The properties of the specification *)

(** C1 (the code departs from the specification).  The specification asks
    that one step update every particle [0 .. n-1] exactly once, for
    [n = 100] too.  The step dispatches [MAX_PARTICLES / 256] work groups,
    with integer division: at the configured count that is 0 groups, so no
    invocation runs, no particle receives an update and the store is left as
    it was.  For any count, an id is visited once if it lies below
    [256 * (n / 256)] and never otherwise. *)
Theorem step_at_100_particles_updates_none :
  MAX_PARTICLES / 256 = 0
  /\ invocation_ids (MAX_PARTICLES / 256) = []
  /\ (forall i, updates_received (MAX_PARTICLES / 256) i = 0)
  /\ (forall dt g, particleBuffer (runComputeShader MAX_PARTICLES dt g) = particleBuffer g)
  /\ (forall n i, updates_received (n / 256) i
                  = if decide (i < n / 256 * local_size_x) then 1 else 0).
Proof.
  split; [reflexivity|]. split; [reflexivity|]. split; [intros i; reflexivity|].
  split; [|intros n i; apply updates_received_eq].
  intros dt g. apply particleBuffer_runComputeShader_small. unfold MAX_PARTICLES. lia.
Qed.

(** C2 (the code departs from the specification).  The end-to-end example
    of the specification: 4 particles at the origin with velocity (1, 0, 0), three steps of
    0.5 at speed 1.  Linear motion gives (1.5, 0, 0); the run leaves the
    store exactly as initialised, every position at the origin, because
    [4 / 256 = 0] work groups are dispatched.  The program as written
    (100 particles, velocity (0.01, 0, 0)) ends the same run with all its
    positions at the origin as well. *)
Theorem end_to_end_positions_stay_at_origin :
  vec3_add origin (vec3_scale unit_x (F32.mul (F32.of_Z 3) F32.half))
    = Vec3 F32_1_5 F32.zero F32.zero
  /\ final_store (main_with 4 origin unit_x good_env three_half_steps)
     = Some (initParticles_store 4 origin unit_x (junk good_env))
  /\ map (host_position (initParticles_store 4 origin unit_x (junk good_env))) [0; 1; 2; 3]
     = [Some origin; Some origin; Some origin; Some origin]
  /\ origin <> Vec3 F32_1_5 F32.zero F32.zero
  /\ final_store (main good_env three_half_steps)
     = Some (initParticles_store MAX_PARTICLES origin default_velocity (junk good_env))
  /\ host_position (initParticles_store MAX_PARTICLES origin default_velocity (junk good_env)) 0
     = Some origin
  /\ F32.is_zero (F32.mul F32.cst_0_01 (F32.mul (F32.of_Z 3) F32.half)) = false.
Proof.
  split; [vm_compute; reflexivity|].
  split; [vm_compute; reflexivity|].
  split; [vm_compute; reflexivity|].
  split; [discriminate|].
  split; [vm_compute; reflexivity|].
  split; vm_compute; reflexivity.
Qed.

(** C6.  Initialisation gives [particleBuffer] one data store of
    [2 * n * sizeof(vec3)] bytes, the positions region followed by the
    velocities region; every position is the origin (0, 0, 0) and every
    velocity is (0.01, 0, 0), a nonzero vector along the x axis.  Nothing of
    the undefined contents of the fresh store survives the two uploads. *)
Theorem initParticles_layout (n : nat) (env : Env) (g : GL) (i : nat) :
  i < n ->
  exists b,
    particleBuffer (initParticles n origin default_velocity env g) = Some b
    /\ length b * sizeof_float = 2 * n * sizeof_vec3
    /\ b = positions_region n b ++ velocities_region n b
    /\ positions_region n b = vector_data (replicate n (Vec3 F32.zero F32.zero F32.zero))
    /\ velocities_region n b = vector_data (replicate n (Vec3 F32.cst_0_01 F32.zero F32.zero))
    /\ host_position b i = Some (Vec3 F32.zero F32.zero F32.zero)
    /\ host_velocity n b i = Some (Vec3 F32.cst_0_01 F32.zero F32.zero)
    /\ F32.is_zero F32.cst_0_01 = false.
Proof.
  intros Hi. exists (initParticles_store n origin default_velocity (junk env)).
  split; [reflexivity|].
  pose proof (length_vector_data_replicate n origin) as Lp.
  pose proof (length_vector_data_replicate n default_velocity) as Lv.
  split.
  { rewrite initParticles_store_eq, length_app, Lp, Lv.
    unfold sizeof_float, sizeof_vec3. lia. }
  split.
  { unfold positions_region, velocities_region. symmetry. apply take_drop. }
  split.
  { unfold positions_region. rewrite vec3_slots, initParticles_store_eq.
    apply take_app_length'. symmetry. apply length_vector_data_replicate. }
  split.
  { unfold velocities_region. rewrite vec3_slots, initParticles_store_eq.
    apply drop_app_length'. symmetry. apply length_vector_data_replicate. }
  split; [apply host_position_init, Hi|].
  split; [apply host_velocity_init, Hi|reflexivity].
Qed.

Lemma initParticles_layout_witness :
  99 < MAX_PARTICLES
  /\ exists b,
    particleBuffer (initParticles MAX_PARTICLES origin default_velocity good_env fresh_context)
      = Some b
    /\ length b * sizeof_float = 2 * MAX_PARTICLES * sizeof_vec3
    /\ b = positions_region MAX_PARTICLES b ++ velocities_region MAX_PARTICLES b
    /\ positions_region MAX_PARTICLES b
       = vector_data (replicate MAX_PARTICLES (Vec3 F32.zero F32.zero F32.zero))
    /\ velocities_region MAX_PARTICLES b
       = vector_data (replicate MAX_PARTICLES (Vec3 F32.cst_0_01 F32.zero F32.zero))
    /\ host_position b 99 = Some (Vec3 F32.zero F32.zero F32.zero)
    /\ host_velocity MAX_PARTICLES b 99 = Some (Vec3 F32.cst_0_01 F32.zero F32.zero)
    /\ F32.is_zero F32.cst_0_01 = false.
Proof.
  assert (H : 99 < MAX_PARTICLES) by (unfold MAX_PARTICLES; lia).
  split; [exact H|].
  exact (initParticles_layout MAX_PARTICLES good_env fresh_context 99 H).
Defined.

(** C8.  The draw leaves the particle store alone: after [renderParticles]
    the data store of [particleBuffer] is the one before it, so every position
    and velocity in it is unchanged.  The draw adds one write to the colour
    and depth planes of the framebuffer; the only other state it touches is
    the context's current program and the matrix uniform. *)
Theorem renderParticles_preserves_store (n : nat) (mvp : mat4) (g : GL) :
  particleBuffer (renderParticles n mvp g) = particleBuffer g
  /\ (exists w, framebuffer (renderParticles n mvp g) = framebuffer g ++ [w])
  /\ computeLinked (renderParticles n mvp g) = computeLinked g
  /\ renderLinked (renderParticles n mvp g) = renderLinked g
  /\ u_deltaTime (renderParticles n mvp g) = u_deltaTime g
  /\ particleBuffer (display n mvp g) = particleBuffer g.
Proof.
  split; [apply particleBuffer_renderParticles|].
  destruct (links_renderParticles n mvp g) as (A & B & _).
  split; [|split; [exact A|split; [exact B|split; [|apply particleBuffer_display]]]].
  - unfold renderParticles, glDrawArrays_points, glUniformMatrix4fv_modelViewProjection,
      glUseProgram.
    destruct (linked renderShaderProgram g) eqn:E; cbn [linked] in E; simpl; rewrite ?E;
      simpl; eauto.
  - unfold renderParticles, glDrawArrays_points, glUniformMatrix4fv_modelViewProjection,
      glUseProgram.
    destruct (linked renderShaderProgram g) eqn:E; cbn [linked] in E; simpl; rewrite ?E;
      simpl; eauto.
Qed.

Lemma links_loop_body n cam d f :
  computeLinked (gl (loop_body n cam d f)) = computeLinked (gl d)
  /\ renderLinked (gl (loop_body n cam d f)) = renderLinked (gl d).
Proof.
  unfold loop_body. cbn [gl].
  destruct (links_display n cam
              (if negb (frame_paused f)
               then runComputeShader n
                      (F32.mul (F32.sub (currentTime f) (lastTime d)) (frame_simulationSpeed f))
                      (gl d)
               else gl d)) as (A & B & _).
  rewrite A, B. destruct (frame_paused f); cbn [negb]; auto.
  destruct (links_runComputeShader n
              (F32.mul (F32.sub (currentTime f) (lastTime d)) (frame_simulationSpeed f))
              (gl d)) as (A' & B' & _).
  auto.
Qed.

Lemma links_run_loop n cam fs : forall d,
  computeLinked (gl (run_loop n cam fs d)) = computeLinked (gl d)
  /\ renderLinked (gl (run_loop n cam fs d)) = renderLinked (gl d).
Proof.
  induction fs as [|f fs IH]; intros d; [auto|].
  rewrite run_loop_cons. destruct (IH (loop_body n cam d f)) as [-> ->].
  apply links_loop_body.
Qed.

(** The store after a running iteration. *)
Lemma particleBuffer_loop_body_running n cam d f :
  frame_paused f = false -> current_program_linked (gl d) ->
  particleBuffer (gl (loop_body n cam d f))
  = if computeLinked (gl d)
    then particleBuffer (gl d)
           ≫= run_invocations
                (F32.mul (F32.sub (currentTime f) (lastTime d)) (frame_simulationSpeed f))
                (invocation_ids (n / 256))
    else particleBuffer (gl d).
Proof.
  intros P W. unfold loop_body. cbn [gl]. rewrite particleBuffer_display, P. cbn [negb].
  apply particleBuffer_runComputeShader, W.
Qed.

(** C3.  While the paused flag is set the particle store does not change,
    whatever times the ticks are taken at; [lastTime] keeps following the
    clock, so the first running tick after the pause steps by the time since
    the tick before it (times the speed), not by the time spent paused: that
    is the value handed to the kernel and the one the kernel runs with. *)
Theorem pause_freezes_store_and_resume_uses_last_tick
  (n : nat) (cam : mat4) (d : Driver) (fs : list Frame) (f : Frame) :
  Forall (fun p => frame_paused p = true) fs ->
  frame_paused f = false ->
  current_program_linked (gl d) ->
  particleBuffer (gl (run_loop n cam fs d)) = particleBuffer (gl d)
  /\ lastTime (run_loop n cam fs d) = previous_tick_time (lastTime d) fs
  /\ frame_calls n cam (run_loop n cam fs d) f
     = step_calls n (F32.mul (F32.sub (currentTime f) (previous_tick_time (lastTime d) fs))
                             (frame_simulationSpeed f))
       ++ display_calls n cam
  /\ particleBuffer (gl (loop_body n cam (run_loop n cam fs d) f))
     = if computeLinked (gl d)
       then particleBuffer (gl d)
              ≫= run_invocations
                   (F32.mul (F32.sub (currentTime f) (previous_tick_time (lastTime d) fs))
                            (frame_simulationSpeed f))
                   (invocation_ids (n / 256))
       else particleBuffer (gl d).
Proof.
  intros Hp Hf W.
  pose proof (particleBuffer_run_loop_paused n cam fs d Hp) as Eb.
  pose proof (lastTime_run_loop n cam fs d) as Et.
  split; [exact Eb|]. split; [exact Et|]. split.
  - rewrite frame_calls_eq, Hf, Et. reflexivity.
  - rewrite particleBuffer_loop_body_running
      by auto using current_program_linked_run_loop.
    destruct (links_run_loop n cam fs d) as [-> _]. rewrite Eb, Et. reflexivity.
Qed.

Lemma pause_freezes_store_and_resume_uses_last_tick_witness :
  particleBuffer
    (gl (run_loop MAX_PARTICLES identity_mat4 [paused_frame F32.half; paused_frame F32.one]
           (initial_driver MAX_PARTICLES origin default_velocity good_env)))
  = particleBuffer (gl (initial_driver MAX_PARTICLES origin default_velocity good_env))
  /\ frame_calls MAX_PARTICLES identity_mat4
       (run_loop MAX_PARTICLES identity_mat4 [paused_frame F32.half; paused_frame F32.one]
          (initial_driver MAX_PARTICLES origin default_velocity good_env))
       (running_frame F32_1_5)
     = step_calls MAX_PARTICLES F32.half ++ display_calls MAX_PARTICLES identity_mat4.
Proof.
  destruct (pause_freezes_store_and_resume_uses_last_tick
              MAX_PARTICLES identity_mat4
              (initial_driver MAX_PARTICLES origin default_velocity good_env)
              [paused_frame F32.half; paused_frame F32.one]
              (running_frame F32_1_5)) as (A & _ & C & _).
  - repeat constructor.
  - reflexivity.
  - apply current_program_linked_initial.
  - split; [exact A|]. rewrite C. vm_compute. reflexivity.
Defined.

(** C4, as the specification states it, fails: a paused frame issues the draw with
    no memory barrier before it. *)
Lemma paused_frame_draws_without_barrier :
  ~ barrier_between_dispatch_and_draw
      (frame_calls MAX_PARTICLES (camera good_env)
         (initial_driver MAX_PARTICLES origin default_velocity good_env)
         (paused_frame F32.half)).
Proof.
  rewrite frame_calls_eq. cbn [paused_frame frame_paused app].
  intros (pre & post & E & _).
  assert (H : In GlMemoryBarrier (display_calls MAX_PARTICLES (camera good_env))).
  { rewrite E. apply in_or_app. right. left. reflexivity. }
  simpl in H. intuition discriminate.
Qed.

(** C4, amended.  The barrier belongs to the compute step: a running frame
    issues program, time step, dispatch and barrier, in that order, and then
    the display, so the barrier comes after the dispatch and before the draw;
    a paused frame issues the display alone, with neither dispatch nor
    barrier. *)
Theorem barrier_follows_dispatch_on_running_frames
  (n : nat) (cam : mat4) (d : Driver) (f p : Frame) :
  frame_paused f = false ->
  frame_paused p = true ->
  frame_calls n cam d f
  = step_calls n (F32.mul (F32.sub (currentTime f) (lastTime d)) (frame_simulationSpeed f))
    ++ display_calls n cam
  /\ barrier_between_dispatch_and_draw (frame_calls n cam d f)
  /\ frame_calls n cam d p = display_calls n cam
  /\ existsb is_barrier (frame_calls n cam d p) = false
  /\ existsb is_dispatch (frame_calls n cam d p) = false
  /\ existsb is_draw (frame_calls n cam d p) = true.
Proof.
  intros Hf Hp. rewrite !frame_calls_eq, Hf, Hp. cbn [app].
  split; [reflexivity|]. split; [|repeat split].
  exists [GlUseProgram computeShaderProgram;
          GlUniform1f "deltaTime"
            (F32.mul (F32.sub (currentTime f) (lastTime d)) (frame_simulationSpeed f));
          GlDispatchCompute (n / 256)],
         (display_calls n cam).
  repeat split.
Qed.

Lemma barrier_follows_dispatch_on_running_frames_witness :
  barrier_between_dispatch_and_draw
    (frame_calls MAX_PARTICLES identity_mat4
       (initial_driver MAX_PARTICLES origin default_velocity good_env)
       (running_frame F32.half))
  /\ frame_calls MAX_PARTICLES identity_mat4
       (initial_driver MAX_PARTICLES origin default_velocity good_env)
       (paused_frame F32.half)
     = display_calls MAX_PARTICLES identity_mat4.
Proof.
  destruct (barrier_follows_dispatch_on_running_frames
              MAX_PARTICLES identity_mat4
              (initial_driver MAX_PARTICLES origin default_velocity good_env)
              (running_frame F32.half) (paused_frame F32.half))
    as (_ & B & C & _); [reflexivity|reflexivity|].
  split; [exact B|exact C].
Defined.

(** ** Steps that do run *)

Lemma particleBuffer_runComputeShader_cases n dt g :
  particleBuffer (runComputeShader n dt g) = particleBuffer g
  \/ exists dt', particleBuffer (runComputeShader n dt g)
                 = particleBuffer g ≫= run_invocations dt' (invocation_ids (n / 256)).
Proof.
  unfold runComputeShader, glMemoryBarrier. rewrite particleBuffer_emit.
  set (g2 := glUniform1f_deltaTime dt (glUseProgram computeShaderProgram g)).
  assert (E : particleBuffer g2 = particleBuffer g).
  { unfold g2. rewrite particleBuffer_glUniform1f. apply particleBuffer_glUseProgram. }
  unfold glDispatchCompute. rewrite particleBuffer_emit.
  destruct (currentProgram g2) as [[|]|];
    cbn [particleBuffer set_particleBuffer]; rewrite E;
    [right; eexists; reflexivity|left; reflexivity|left; reflexivity].
Qed.

Lemma records_in_store_ids n (b : store) id :
  records_in_store n b -> id ∈ invocation_ids (n / 256) -> 8 * id + 6 < length b.
Proof.
  unfold records_in_store, Particle_stride, sizeof_float.
  rewrite elem_of_invocation_ids. intros H Hid. lia.
Qed.

Lemma all_finite_vector_data n v :
  F32.is_finite (vx v) = true -> F32.is_finite (vy v) = true -> F32.is_finite (vz v) = true ->
  all_finite (vector_data (replicate n v)).
Proof.
  intros Hx Hy Hz. unfold all_finite. induction n as [|n IH]; [constructor|].
  rewrite vector_data_replicate_S. repeat constructor; assumption.
Qed.

Lemma all_finite_initParticles_store n junk :
  all_finite (initParticles_store n origin default_velocity junk).
Proof.
  rewrite initParticles_store_eq. unfold all_finite. apply Forall_app.
  split; apply all_finite_vector_data; reflexivity.
Qed.

Lemma length_initParticles_store n p0 v0 junk :
  length (initParticles_store n p0 v0 junk) = 6 * n.
Proof.
  rewrite initParticles_store_eq, length_app, !length_vector_data_replicate. lia.
Qed.

(** A step with a zero time step over a store of finite numbers, all visited
    records inside it: every slot keeps its value. *)
Lemma runComputeShader_zero_step n dt g b :
  current_program_linked g -> particleBuffer g = Some b ->
  all_finite b -> records_in_store n b -> F32.is_zero dt = true ->
  exists b', particleBuffer (runComputeShader n dt g) = Some b' /\ Forall2 F32.same_value b b'.
Proof.
  intros W Hb Hf Hr Hz. rewrite particleBuffer_runComputeShader by exact W.
  destruct (computeLinked g).
  - rewrite Hb. cbn [mbind option_bind].
    destruct (run_invocations_defined dt (invocation_ids (n / 256)) b) as [b' E].
    { intros id Hid. eapply records_in_store_ids; eauto. }
    exists b'. split; [exact E|]. eapply run_invocations_zero_step; eauto.
  - exists b. split; [exact Hb|].
    apply Forall_Forall2_diag, Forall_forall. intros. apply same_value_refl.
Qed.

(** C5, as the specification states it, fails: with a speed multiplier of -1 the run
    is not rejected.  Nothing is written to the error stream, the loop runs
    its frame and hands the kernel the time step -0.5, and the exit code
    is 0. *)
Lemma negative_speed_is_not_rejected :
  exit_code (main good_env [MkFrame F32.half false F32_minus_one]) = 0%Z
  /\ List.filter is_Cerr (output (main good_env [MkFrame F32.half false F32_minus_one])) = []
  /\ In (GlUniform1f "deltaTime" (S754_finite true 8388608 (-24)))
        (output (main good_env [MkFrame F32.half false F32_minus_one]))
  /\ count is_dispatch (output (main good_env [MkFrame F32.half false F32_minus_one])) = 1.
Proof.
  split; [reflexivity|]. split; [vm_compute; reflexivity|].
  split; [|vm_compute; reflexivity].
  vm_compute. repeat (first [left; reflexivity | right]).
Qed.

(** C5, amended.  The speed multiplier is never validated: with GLFW and the
    window available the run ends with exit code 0 whatever multipliers the
    frames carry, writes nothing to the error stream beyond the shader
    diagnostics, dispatches once per running frame, and hands the kernel the
    elapsed time times the multiplier, of either sign.  A multiplier of zero
    gives no displacement: over a store of finite numbers that contains the
    visited records, every slot keeps its value across the frame. *)
Theorem speed_is_unchecked_and_zero_speed_gives_no_displacement
  (env : Env) (frames : list Frame) (n : nat) (cam : mat4) (d : Driver)
  (r f : Frame) (b : store) :
  glfwInit_ok env = true ->
  window_ok env = true ->
  frame_paused r = false ->
  current_program_linked (gl d) ->
  particleBuffer (gl d) = Some b ->
  all_finite b ->
  records_in_store n b ->
  F32.is_finite (F32.sub (currentTime f) (lastTime d)) = true ->
  F32.is_zero (frame_simulationSpeed f) = true ->
  (exit_code (main env frames) = 0%Z
   /\ List.filter is_Cerr (output (main env frames)) = startup_diagnostics env
   /\ count is_dispatch (output (main env frames)) = length (List.filter running frames))
  /\ In (GlUniform1f "deltaTime"
           (F32.mul (F32.sub (currentTime r) (lastTime d)) (frame_simulationSpeed r)))
        (frame_calls n cam d r)
  /\ exists b', particleBuffer (gl (loop_body n cam d f)) = Some b'
                /\ Forall2 F32.same_value b b'.
Proof.
  intros Hg Hw Hr W Hb Hf Hs Hdt Hz.
  destruct (run_counts MAX_PARTICLES origin default_velocity env frames Hg Hw)
    as (X & D & _ & C).
  split; [unfold main; auto|]. split.
  - rewrite frame_calls_eq, Hr. right. left. reflexivity.
  - unfold loop_body. cbn [gl]. rewrite particleBuffer_display.
    destruct (frame_paused f); cbn [negb].
    + exists b. split; [exact Hb|].
      apply Forall_Forall2_diag, Forall_forall. intros. apply same_value_refl.
    + apply runComputeShader_zero_step; auto using zero_speed_zero_step.
Qed.

Lemma speed_is_unchecked_and_zero_speed_gives_no_displacement_witness :
  exit_code (main good_env [MkFrame F32.half false F32_minus_one]) = 0%Z
  /\ In (GlUniform1f "deltaTime"
           (F32.mul (F32.sub F32.half F32.zero) F32_minus_one))
        (frame_calls 342 identity_mat4
           (initial_driver 342 origin default_velocity good_env)
           (MkFrame F32.half false F32_minus_one))
  /\ exists b',
       particleBuffer
         (gl (loop_body 342 identity_mat4
                (initial_driver 342 origin default_velocity good_env)
                (MkFrame F32.half false F32.zero))) = Some b'
       /\ Forall2 F32.same_value
            (initParticles_store 342 origin default_velocity (junk good_env)) b'.
Proof.
  destruct (speed_is_unchecked_and_zero_speed_gives_no_displacement
              good_env [MkFrame F32.half false F32_minus_one] 342 identity_mat4
              (initial_driver 342 origin default_velocity good_env)
              (MkFrame F32.half false F32_minus_one)
              (MkFrame F32.half false F32.zero)
              (initParticles_store 342 origin default_velocity (junk good_env)))
    as ((X & _) & U & Z).
  - reflexivity.
  - reflexivity.
  - reflexivity.
  - apply current_program_linked_initial.
  - reflexivity.
  - apply all_finite_initParticles_store.
  - unfold records_in_store. rewrite length_initParticles_store. vm_compute. lia.
  - reflexivity.
  - reflexivity.
  - split; [exact X|]. split; [exact U|exact Z].
Defined.

(** C7, as the specification states it, fails: when the compute shader does not
    compile, the run writes the two diagnostics and goes on; it dispatches and
    draws in its frame and ends with exit code 0. *)
Lemma compile_failure_does_not_stop_the_run :
  exit_code (main bad_compiler_env [running_frame F32.half]) = 0%Z
  /\ List.filter is_Cerr (output (main bad_compiler_env [running_frame F32.half]))
     = [Cerr "Error compiling Compute shader:"; Cerr "Error linking compute shader program:"]
  /\ count is_dispatch (output (main bad_compiler_env [running_frame F32.half])) = 1
  /\ count is_draw (output (main bad_compiler_env [running_frame F32.half])) = 1.
Proof. repeat split; vm_compute; reflexivity. Qed.

(** C7, amended.  A shader that does not compile or a program that does not
    link is reported on the error stream and nothing more: whatever the
    compile and link statuses, a run with GLFW and the window available
    enters the loop, draws once per frame, dispatches once per running frame,
    and ends with exit code 0.  Only a failure of GLFW or of the window ends
    the run before the loop, with exit code -1. *)
Theorem shader_failures_are_reported_and_the_run_goes_on
  (env : Env) (frames : list Frame) :
  if glfwInit_ok env && window_ok env
  then exit_code (main env frames) = 0%Z
       /\ List.filter is_Cerr (output (main env frames)) = startup_diagnostics env
       /\ count is_draw (output (main env frames)) = length frames
       /\ count is_dispatch (output (main env frames)) = length (List.filter running frames)
  else exit_code (main env frames) = (-1)%Z
       /\ count is_draw (output (main env frames)) = 0
       /\ final (main env frames) = None.
Proof.
  destruct (glfwInit_ok env) eqn:Hg; [destruct (window_ok env) eqn:Hw|]; cbn [andb].
  - destruct (run_counts MAX_PARTICLES origin default_velocity env frames Hg Hw)
      as (X & D & R & C).
    unfold main. auto.
  - unfold main, main_with. rewrite Hg, Hw. repeat split.
  - unfold main, main_with. rewrite Hg. repeat split.
Qed.

Lemma runComputeShader_particle_velocity n dt g b b' id :
  particleBuffer g = Some b ->
  particleBuffer (runComputeShader n dt g) = Some b' ->
  particle_velocity b' id = particle_velocity b id.
Proof.
  intros Hb Hb'.
  destruct (particleBuffer_runComputeShader_cases n dt g) as [E|[dt' E]];
    rewrite E, Hb in Hb'.
  - injection Hb' as <-. reflexivity.
  - cbn [mbind option_bind] in Hb'.
    eapply run_invocations_particle_velocity. exact Hb'.
Qed.

(** C9.  The step never changes a velocity.  For any particle count, any
    store and any time step the kernel writes the [position] field of the
    records it visits and leaves the [velocity] field of every record as it
    was.  At the program's particle count the step leaves the whole store, and
    so its velocities region, unchanged; hence in every state of the frame
    loop each particle's velocity is the one given at initialisation,
    (0.01, 0, 0). *)
Theorem integrator_never_changes_velocity :
  (forall n dt g b b' id,
      particleBuffer g = Some b ->
      particleBuffer (runComputeShader n dt g) = Some b' ->
      particle_velocity b' id = particle_velocity b id)
  /\ (forall dt g b,
         particleBuffer g = Some b ->
         exists b', particleBuffer (runComputeShader MAX_PARTICLES dt g) = Some b'
                    /\ velocities_region MAX_PARTICLES b' = velocities_region MAX_PARTICLES b
                    /\ forall i, host_velocity MAX_PARTICLES b' i
                                 = host_velocity MAX_PARTICLES b i)
  /\ (forall env d i,
         reachable MAX_PARTICLES origin default_velocity env d ->
         i < MAX_PARTICLES ->
         exists b, particleBuffer (gl d) = Some b
                   /\ host_velocity MAX_PARTICLES b i = Some default_velocity).
Proof.
  assert (Hn : MAX_PARTICLES < 256) by (unfold MAX_PARTICLES; lia).
  split; [exact runComputeShader_particle_velocity|]. split.
  - intros dt g b Hb. exists b.
    rewrite particleBuffer_runComputeShader_small by exact Hn. auto.
  - intros env d i R Hi.
    exists (initParticles_store MAX_PARTICLES origin default_velocity (junk env)).
    split; [apply reachable_store_small; assumption|].
    apply host_velocity_init, Hi.
Qed.

(** An instance with a dispatch that does run: 342 particles, one work
    group of 256 invocations inside the store. *)
Lemma integrator_never_changes_velocity_witness :
  (exists b',
      particleBuffer
        (runComputeShader 342 F32.one (gl (initial_driver 342 origin default_velocity good_env)))
      = Some b'
      /\ particle_velocity b' 129
         = particle_velocity (initParticles_store 342 origin default_velocity (junk good_env)) 129)
  /\ (exists b,
         particleBuffer
           (gl (loop_body MAX_PARTICLES (camera good_env)
                  (initial_driver MAX_PARTICLES origin default_velocity good_env)
                  (running_frame F32.one))) = Some b
         /\ host_velocity MAX_PARTICLES b 99 = Some default_velocity).
Proof.
  destruct integrator_never_changes_velocity as (K & _ & L).
  split.
  - destruct (particleBuffer
                (runComputeShader 342 F32.one
                   (gl (initial_driver 342 origin default_velocity good_env)))) as [b'|] eqn:E.
    + exists b'. split; [reflexivity|]. eapply K; [|exact E]. reflexivity.
    + exfalso. revert E. vm_compute. discriminate.
  - apply (L good_env).
    + apply reachable_frame, reachable_init.
    + unfold MAX_PARTICLES. lia.
Defined.

(** ** The record layout of the kernel against the layout of the upload

    The kernel addresses records of 32 bytes, the upload wrote two regions of
    packed 12-byte vectors.  The two views agree on nothing but the size of
    a float.  The program never notices, since it dispatches no work group;
    with 342 particles one group runs inside the store, and one step of one
    second moves the last particle only and bends the velocity of
    particle 2. *)
Example record_layout_342 :
  exists b,
    particleBuffer
      (gl (loop_body 342 identity_mat4 (initial_driver 342 origin default_velocity good_env)
             (running_frame F32.one))) = Some b
    /\ host_position b 0 = Some origin
    /\ host_position b 341 = Some (Vec3 F32.zero F32.zero F32.cst_0_01)
    /\ host_velocity 342 b 1 = Some default_velocity
    /\ host_velocity 342 b 2 = Some (Vec3 F32.cst_0_01 F32.zero F32.cst_0_01).
Proof.
  destruct (particleBuffer
              (gl (loop_body 342 identity_mat4
                     (initial_driver 342 origin default_velocity good_env)
                     (running_frame F32.one)))) as [b|] eqn:E.
  - exists b. split; [reflexivity|]. revert E. vm_compute. intros [= <-]. repeat split.
  - revert E. vm_compute. discriminate.
Qed.

(** With 256 particles the one group that runs reaches past the end of the
    store: the contents of the store are undefined after the step. *)
Example record_layout_256 :
  particleBuffer
    (gl (loop_body 256 identity_mat4 (initial_driver 256 origin default_velocity good_env)
           (running_frame F32.one))) = None.
Proof. vm_compute. reflexivity. Qed.

(** * Further properties of the code *)

(** ** The kernel on its own records *)

Lemma particle_position_in_store (b : store) id p :
  particle_position b id = Some p -> 8 * id + 2 < length b.
Proof.
  unfold particle_position. rewrite position_slot_eq.
  intros (_ & _ & H)%read_vec3_Some. apply lookup_lt_Some in H. exact H.
Qed.

Lemma computeShader_main_position_self dt id (b b' : store) :
  computeShader_main dt id b = Some b' ->
  exists p v, particle_position b id = Some p /\ particle_velocity b id = Some v
              /\ particle_position b' id = Some (vec3_add p (vec3_scale v dt)).
Proof.
  intros H. destruct (computeShader_main_Some _ _ _ _ H) as (p & v & Hp & Hv & ->).
  exists p, v. split; [exact Hp|]. split; [exact Hv|].
  unfold particle_position at 1. rewrite position_slot_eq. apply read_write_vec3.
  apply (particle_position_in_store _ _ _ Hp).
Qed.

Lemma computeShader_main_position_other dt id j (b b' : store) :
  computeShader_main dt id b = Some b' -> j <> id ->
  particle_position b' j = particle_position b j.
Proof.
  intros H Hj. destruct (computeShader_main_frame _ _ _ _ H) as [_ F].
  unfold particle_position. rewrite position_slot_eq.
  apply read_vec3_ext; apply F; lia.
Qed.

Lemma computeShader_main_velocity dt id j (b b' : store) :
  computeShader_main dt id b = Some b' ->
  particle_velocity b' j = particle_velocity b j.
Proof.
  intros H. apply (run_invocations_particle_velocity dt [id]).
  simpl. rewrite H. reflexivity.
Qed.

Lemma run_invocations_position_unvisited dt ids : forall (b b' : store) id,
  run_invocations dt ids b = Some b' -> id ∉ ids ->
  particle_position b' id = particle_position b id.
Proof.
  induction ids as [|i rest IH]; intros b b' id H Hid.
  - injection H as <-. reflexivity.
  - rewrite run_invocations_cons in H.
    destruct (computeShader_main dt i b) as [b1|] eqn:E1; [|discriminate].
    cbn [mbind option_bind] in H.
    rewrite (IH b1 b' id H) by (intros X; apply Hid; right; exact X).
    apply (computeShader_main_position_other _ _ _ _ _ E1).
    intros ->. apply Hid. left.
Qed.

Lemma run_invocations_position_visited dt ids : forall (b b' : store) id,
  NoDup ids -> run_invocations dt ids b = Some b' -> id ∈ ids ->
  exists p v, particle_position b id = Some p /\ particle_velocity b id = Some v
              /\ particle_position b' id = Some (vec3_add p (vec3_scale v dt)).
Proof.
  induction ids as [|i rest IH]; intros b b' id ND H Hid; [inversion Hid|].
  apply NoDup_cons in ND as [Hi ND]. rewrite run_invocations_cons in H.
  destruct (computeShader_main dt i b) as [b1|] eqn:E1; [|discriminate].
  cbn [mbind option_bind] in H.
  destruct (decide (id = i)) as [->|Hne].
  - destruct (computeShader_main_position_self _ _ _ _ E1) as (p & v & Hp & Hv & Hp').
    exists p, v. split; [exact Hp|]. split; [exact Hv|].
    rewrite <- Hp'. apply (run_invocations_position_unvisited _ _ _ _ _ H Hi).
  - assert (Hr : id ∈ rest) by (apply elem_of_cons in Hid as [?|?]; [contradiction|assumption]).
    destruct (IH b1 b' id ND H Hr) as (p & v & Hp & Hv & Hp').
    exists p, v.
    rewrite <- (computeShader_main_position_other _ _ _ _ _ E1 Hne).
    rewrite <- (computeShader_main_velocity _ _ id _ _ E1). auto.
Qed.

(** X1.  One dispatch, in the kernel's own view of the buffer: every record
    whose id is dispatched has its position replaced by
    [position + velocity * deltaTime], computed from the values before the
    dispatch; the position of every other record, the velocity of every
    record and the size of the store are unchanged. *)
Theorem dispatch_updates_each_visited_record
  (dt : float) (ids : list nat) (b b' : store) :
  NoDup ids ->
  run_invocations dt ids b = Some b' ->
  length b' = length b
  /\ (forall id, id ∈ ids ->
        exists p v, particle_position b id = Some p /\ particle_velocity b id = Some v
                    /\ particle_position b' id = Some (vec3_add p (vec3_scale v dt)))
  /\ (forall id, id ∉ ids -> particle_position b' id = particle_position b id)
  /\ (forall id, particle_velocity b' id = particle_velocity b id).
Proof.
  intros ND H. split; [apply (run_invocations_frame _ _ _ _ H)|].
  split; [intros id; apply (run_invocations_position_visited _ _ _ _ _ ND H)|].
  split; [intros id; apply (run_invocations_position_unvisited _ _ _ _ _ H)|].
  apply (run_invocations_particle_velocity _ _ _ _ H).
Qed.

Lemma dispatch_updates_each_visited_record_witness :
  exists b',
    run_invocations F32.half [1; 0] two_records = Some b'
    /\ length b' = 16
    /\ particle_position b' 0 = Some (Vec3 F32.half F32.zero F32.zero)
    /\ particle_velocity b' 1 = Some (Vec3 F32.zero F32.half F32.zero).
Proof.
  destruct (run_invocations F32.half [1; 0] two_records) as [b'|] eqn:E;
    [|revert E; vm_compute; discriminate].
  assert (ND : NoDup [1; 0]).
  { apply NoDup_cons. split; [|apply NoDup_singleton].
    intros H%list_elem_of_singleton. discriminate. }
  destruct (dispatch_updates_each_visited_record F32.half [1; 0] two_records b' ND E)
    as (L & U & _ & V).
  exists b'. split; [reflexivity|]. split; [exact L|]. split.
  - destruct (U 0) as (p & v & Hp & Hv & ->);
      [apply elem_of_cons; right; apply elem_of_cons; left; reflexivity|].
    assert (Hp0 : particle_position two_records 0 = Some (Vec3 F32.zero F32.zero F32.zero))
      by reflexivity.
    assert (Hv0 : particle_velocity two_records 0 = Some (Vec3 F32.one F32.zero F32.zero))
      by reflexivity.
    rewrite Hp0 in Hp. rewrite Hv0 in Hv. injection Hp as <-. injection Hv as <-.
    vm_compute. reflexivity.
  - rewrite V. reflexivity.
Defined.

(** X2.  The order in which the invocations of a dispatch run is
    irrelevant: any schedule of the same ids gives the same store, and is
    undefined for the same inputs.  The records of distinct ids do not
    overlap, which is what lets the kernel run in parallel. *)
Theorem dispatch_schedule_is_irrelevant
  (dt : float) (num_groups_x : nat) (schedule : list nat) (b : store) :
  invocation_ids num_groups_x ≡ₚ schedule ->
  run_invocations dt schedule b = run_invocations dt (invocation_ids num_groups_x) b.
Proof.
  intros HP. symmetry. apply run_invocations_order; [exact HP|apply NoDup_invocation_ids].
Qed.

Lemma dispatch_schedule_is_irrelevant_witness :
  run_invocations F32.one (reverse (invocation_ids 1))
    (initParticles_store 342 origin default_velocity (junk good_env))
  = run_invocations F32.one (invocation_ids 1)
      (initParticles_store 342 origin default_velocity (junk good_env)).
Proof.
  apply dispatch_schedule_is_irrelevant. symmetry. apply reverse_Permutation.
Defined.

(** ** The extent of the dispatch against the size of the buffer *)

Lemma run_invocations_undefined dt ids : forall (b : store) id,
  id ∈ ids -> length b <= 8 * id + 6 -> run_invocations dt ids b = None.
Proof.
  induction ids as [|i rest IH]; intros b id Hid Hlen; [inversion Hid|].
  rewrite run_invocations_cons.
  destruct (computeShader_main dt i b) as [b1|] eqn:E1; [|reflexivity].
  cbn [mbind option_bind].
  destruct (computeShader_main_frame _ _ _ _ E1) as [L1 _].
  apply elem_of_cons in Hid as [->|Hid].
  - destruct (computeShader_main_Some _ _ _ _ E1) as (p & v & _ & Hv & _).
    unfold particle_velocity in Hv. rewrite velocity_slot_eq in Hv.
    apply read_vec3_Some in Hv as (_ & _ & Hz). apply lookup_lt_Some in Hz. lia.
  - apply (IH b1 id Hid). lia.
Qed.

(** X3.  Whether a dispatch stays inside the buffer depends on the particle
    count alone.  On the buffer [initParticles] allocates (24 bytes per
    particle) the dispatch of [n / 256] groups over 32-byte records stays
    inside exactly for [n < 256] (nothing is dispatched), [342 <= n <= 511]
    and [683 <= n <= 767]; for every other count, all multiples of 256
    among them, some invocation reads past the end of the buffer. *)
Theorem dispatch_stays_in_store_iff
  (n : nat) (p0 v0 : vec3) (junk : nat -> float) (dt : float) :
  is_Some (run_invocations dt (invocation_ids (n / 256)) (initParticles_store n p0 v0 junk))
  <-> n < 256 \/ (342 <= n /\ n <= 511) \/ (683 <= n /\ n <= 767).
Proof.
  pose proof (length_initParticles_store n p0 v0 junk) as L.
  pose proof (Nat.div_mod_eq n 256) as E.
  pose proof (Nat.mod_upper_bound n 256) as U.
  split.
  - intros [b' Hb'].
    destruct (decide (n / 256 = 0)) as [Z|NZ]; [left; lia|].
    destruct (decide (8 * (n / 256 * 256 - 1) + 6 < 6 * n)) as [Hin|Hout]; [lia|].
    rewrite (run_invocations_undefined dt _ _ (n / 256 * 256 - 1)) in Hb'; [discriminate| |lia].
    apply elem_of_invocation_ids. unfold local_size_x. lia.
  - intros H. apply run_invocations_defined. intros id Hid.
    apply elem_of_invocation_ids in Hid. unfold local_size_x in Hid. lia.
Qed.

(** ** The particles a step leaves out *)

Lemma unvisited_below g m :
  length (filter (fun i => updates_received g i = 0) (seq 0 m)) = m - g * local_size_x.
Proof.
  induction m as [|m IH]; [reflexivity|].
  rewrite seq_S, filter_app, length_app, IH. cbn [Nat.add filter list_filter].
  destruct (decide (updates_received g m = 0)) as [H|H];
    rewrite updates_received_eq in H; case_decide; cbn [length]; lia.
Qed.

(** X4.  Of the [n] particles exactly [n mod 256] are left out by a step
    (the dispatch extent is rounded down), no particle is visited twice, and
    no id from [n] on is ever visited. *)
Theorem step_leaves_out_the_remainder (n : nat) :
  length (filter (fun i => updates_received (n / 256) i = 0) (seq 0 n)) = n mod 256
  /\ (forall i, updates_received (n / 256) i <= 1)
  /\ (forall i, updates_received (n / 256) (n + i) = 0).
Proof.
  pose proof (Nat.div_mod_eq n 256) as E.
  split; [rewrite unvisited_below; unfold local_size_x; lia|].
  split; intros i; rewrite updates_received_eq; unfold local_size_x; case_decide; lia.
Qed.

(** ** The frame loop over a usable kernel *)

Lemma particleBuffer_runComputeShader_None n dt g :
  particleBuffer g = None -> particleBuffer (runComputeShader n dt g) = None.
Proof.
  intros H. destruct (particleBuffer_runComputeShader_cases n dt g) as [E|[dt' E]];
    rewrite E, H; reflexivity.
Qed.

Lemma particleBuffer_loop_body_None n cam d f :
  particleBuffer (gl d) = None -> particleBuffer (gl (loop_body n cam d f)) = None.
Proof.
  intros H. unfold loop_body. cbn [gl]. rewrite particleBuffer_display.
  destruct (frame_paused f); cbn [negb]; auto using particleBuffer_runComputeShader_None.
Qed.

Lemma particleBuffer_run_loop_None n cam fs : forall d,
  particleBuffer (gl d) = None -> particleBuffer (gl (run_loop n cam fs d)) = None.
Proof.
  induction fs as [|f fs IH]; intros d H; [exact H|].
  rewrite run_loop_cons. apply IH, particleBuffer_loop_body_None, H.
Qed.

Lemma advance_cons v p dt dts :
  advance v p (dt :: dts) = advance v (vec3_add p (vec3_scale v dt)) dts.
Proof. reflexivity. Qed.

(** X5.  The frame loop as an integrator, in the kernel's view.  With a
    linked compute program, as long as the store stays defined, a record
    whose id is dispatched ends the loop at its starting position advanced
    by [velocity * dt] once per running frame, in frame order, where [dt] is
    the time since the previous frame (paused or not) times the speed read
    in that frame; paused frames contribute nothing.  Records that are not
    dispatched keep their position, and every velocity is kept. *)
Theorem loop_advances_dispatched_records
  (n : nat) (cam : mat4) (fs : list Frame) (d : Driver) (b b' : store) :
  current_program_linked (gl d) ->
  computeLinked (gl d) = true ->
  particleBuffer (gl d) = Some b ->
  particleBuffer (gl (run_loop n cam fs d)) = Some b' ->
  (forall id p v,
      id ∈ invocation_ids (n / 256) ->
      particle_position b id = Some p -> particle_velocity b id = Some v ->
      particle_position b' id = Some (advance v p (step_times (lastTime d) fs)))
  /\ (forall id, id ∉ invocation_ids (n / 256) ->
                 particle_position b' id = particle_position b id)
  /\ (forall id, particle_velocity b' id = particle_velocity b id).
Proof.
  revert d b. induction fs as [|f fs IH]; intros d b W CL Hb Hb'.
  - cbn in Hb'. rewrite Hb in Hb'. injection Hb' as <-.
    split; [intros id p v _ Hp _; exact Hp|split; reflexivity].
  - rewrite run_loop_cons in Hb'.
    pose proof (current_program_linked_loop_body n cam d f W) as W1.
    destruct (links_loop_body n cam d f) as [CL1 _]. rewrite CL in CL1.
    destruct (particleBuffer (gl (loop_body n cam d f))) as [b1|] eqn:E1;
      [|rewrite particleBuffer_run_loop_None in Hb' by exact E1; discriminate].
    destruct (IH _ _ W1 CL1 E1 Hb') as (V & U & K).
    rewrite lastTime_loop_body in V. cbn [step_times].
    destruct (frame_paused f) eqn:P.
    + rewrite particleBuffer_loop_body_paused in E1 by exact P.
      rewrite Hb in E1. injection E1 as <-. cbn [app]. auto.
    + rewrite particleBuffer_loop_body_running in E1 by assumption.
      rewrite CL, Hb in E1. cbn [mbind option_bind] in E1. cbn [app].
      pose proof (NoDup_invocation_ids (n / 256)) as ND.
      split; [|split].
      * intros id p v Hid Hp Hv. rewrite advance_cons.
        destruct (run_invocations_position_visited _ _ _ _ _ ND E1 Hid)
          as (p' & v' & Hp' & Hv' & Hp1).
        rewrite Hp in Hp'. rewrite Hv in Hv'. injection Hp' as <-. injection Hv' as <-.
        apply (V id _ v Hid Hp1).
        rewrite (run_invocations_particle_velocity _ _ _ _ E1). exact Hv.
      * intros id Hid. rewrite (U id Hid).
        apply (run_invocations_position_unvisited _ _ _ _ _ E1 Hid).
      * intros id. rewrite K. apply (run_invocations_particle_velocity _ _ _ _ E1).
Qed.

Lemma loop_advances_dispatched_records_witness :
  exists b',
    particleBuffer
      (gl (run_loop 342 identity_mat4 three_half_steps
             (initial_driver 342 origin default_velocity good_env))) = Some b'
    /\ particle_position b' 129
       = Some (advance (Vec3 F32.zero F32.zero F32.cst_0_01)
                       (Vec3 F32.cst_0_01 F32.zero F32.zero)
                       [F32.half; F32.half; F32.half]).
Proof.
  destruct (particleBuffer
              (gl (run_loop 342 identity_mat4 three_half_steps
                     (initial_driver 342 origin default_velocity good_env))))
    as [b'|] eqn:E; [|revert E; vm_compute; discriminate].
  destruct (loop_advances_dispatched_records 342 identity_mat4 three_half_steps
              (initial_driver 342 origin default_velocity good_env)
              (initParticles_store 342 origin default_velocity (junk good_env)) b')
    as (V & _ & _).
  - apply current_program_linked_initial.
  - reflexivity.
  - reflexivity.
  - exact E.
  - exists b'. split; [reflexivity|].
    rewrite (V 129 (Vec3 F32.cst_0_01 F32.zero F32.zero)
               (Vec3 F32.zero F32.zero F32.cst_0_01)).
    + vm_compute. reflexivity.
    + apply elem_of_invocation_ids. vm_compute. lia.
    + vm_compute. reflexivity.
    + vm_compute. reflexivity.
Defined.

(** ** A compute program that cannot be used *)

Lemma links_initShaders env g :
  computeLinked (initRenderShader env (initComputeShader env g))
  = compute_compile_status env && compute_link_status env
  /\ renderLinked (initRenderShader env (initComputeShader env g))
     = vertex_compile_status env && fragment_compile_status env && render_link_status env
  /\ framebuffer (initRenderShader env (initComputeShader env g)) = framebuffer g.
Proof.
  unfold initRenderShader, initComputeShader, checkShaderCompilation.
  destruct (compute_compile_status env), (compute_link_status env),
    (vertex_compile_status env), (fragment_compile_status env), (render_link_status env);
    repeat split.
Qed.

Lemma links_initOpenGL n p0 v0 env g :
  computeLinked (initOpenGL n p0 v0 env g)
  = compute_compile_status env && compute_link_status env
  /\ renderLinked (initOpenGL n p0 v0 env g)
     = vertex_compile_status env && fragment_compile_status env && render_link_status env
  /\ framebuffer (initOpenGL n p0 v0 env g) = framebuffer g.
Proof.
  destruct (links_initShaders env g) as (A & B & C).
  unfold initOpenGL, initParticles.
  change (computeLinked (emit ?c ?x)) with (computeLinked x).
  change (renderLinked (emit ?c ?x)) with (renderLinked x).
  change (framebuffer (emit ?c ?x)) with (framebuffer x).
  change (computeLinked (emit ?c ?x)) with (computeLinked x).
  change (renderLinked (emit ?c ?x)) with (renderLinked x).
  change (framebuffer (emit ?c ?x)) with (framebuffer x).
  change (computeLinked (emit ?c ?x)) with (computeLinked x).
  change (renderLinked (emit ?c ?x)) with (renderLinked x).
  change (framebuffer (emit ?c ?x)) with (framebuffer x).
  change (computeLinked (set_particleBuffer ?c ?x)) with (computeLinked x).
  change (renderLinked (set_particleBuffer ?c ?x)) with (renderLinked x).
  change (framebuffer (set_particleBuffer ?c ?x)) with (framebuffer x).
  auto.
Qed.

Lemma particleBuffer_run_loop_unlinked n cam fs : forall d,
  current_program_linked (gl d) -> computeLinked (gl d) = false ->
  particleBuffer (gl (run_loop n cam fs d)) = particleBuffer (gl d).
Proof.
  induction fs as [|f fs IH]; intros d W CL; [reflexivity|].
  rewrite run_loop_cons.
  destruct (links_loop_body n cam d f) as [CL1 _]. rewrite CL in CL1.
  rewrite IH by auto using current_program_linked_loop_body.
  unfold loop_body. cbn [gl]. rewrite particleBuffer_display.
  destruct (frame_paused f); cbn [negb]; [reflexivity|].
  rewrite particleBuffer_runComputeShader by exact W. rewrite CL. reflexivity.
Qed.

(** X6.  When the compute shader does not compile or its program does not
    link, no frame changes the particle store: for every particle count and
    every sequence of frames the run ends with the store exactly as
    [initParticles] built it (each dispatch is issued without a usable
    program and does no work). *)
Theorem unusable_compute_program_leaves_store_untouched
  (n : nat) (p0 v0 : vec3) (env : Env) (frames : list Frame) :
  glfwInit_ok env = true ->
  window_ok env = true ->
  compute_compile_status env && compute_link_status env = false ->
  final_store (main_with n p0 v0 env frames)
  = Some (initParticles_store n p0 v0 (junk env)).
Proof.
  intros Hg Hw Hc. rewrite main_with_ok by assumption.
  unfold final_store. cbn [final mbind option_bind].
  rewrite particleBuffer_run_loop_unlinked.
  - reflexivity.
  - apply current_program_linked_initial.
  - unfold initial_driver. cbn [gl].
    destruct (links_initOpenGL n p0 v0 env fresh_context) as (A & _ & _).
    rewrite A. exact Hc.
Qed.

Lemma unusable_compute_program_leaves_store_untouched_witness :
  final_store (main_with 342 origin default_velocity bad_compiler_env three_half_steps)
  = Some (initParticles_store 342 origin default_velocity (junk bad_compiler_env)).
Proof.
  apply unusable_compute_program_leaves_store_untouched; reflexivity.
Defined.

(** ** What the frames draw *)

Lemma map_const_seq {A} (c : A) n : forall a, map (fun _ => c) (seq a n) = replicate n c.
Proof. induction n as [|n IH]; intros a; [reflexivity|]. simpl. rewrite IH. reflexivity. Qed.

Lemma framebuffer_glUseProgram p g : framebuffer (glUseProgram p g) = framebuffer g.
Proof. unfold glUseProgram. destruct (linked p g); reflexivity. Qed.

Lemma framebuffer_glUniform1f v g : framebuffer (glUniform1f_deltaTime v g) = framebuffer g.
Proof. unfold glUniform1f_deltaTime. destruct (computeLinked g); reflexivity. Qed.

Lemma framebuffer_glDispatchCompute k g : framebuffer (glDispatchCompute k g) = framebuffer g.
Proof. unfold glDispatchCompute. destruct (currentProgram g) as [[|]|]; reflexivity. Qed.

Lemma framebuffer_runComputeShader n dt g :
  framebuffer (runComputeShader n dt g) = framebuffer g.
Proof.
  unfold runComputeShader, glMemoryBarrier.
  change (framebuffer (emit ?c ?x)) with (framebuffer x).
  rewrite framebuffer_glDispatchCompute, framebuffer_glUniform1f.
  apply framebuffer_glUseProgram.
Qed.

Lemma framebuffer_glDrawArrays_points first count g :
  framebuffer (glDrawArrays_points first count g)
  = framebuffer g
    ++ [match currentProgram g with
        | Some renderShaderProgram =>
            FbPoints
              (map (fun _ => vertexShader_main (u_modelViewProjection g) current_attribute0)
                   (seq first count))
              fragmentShader_main
        | _ => FbUndefined
        end].
Proof. reflexivity. Qed.

Lemma render_state_before_draw m g :
  framebuffer (glUniformMatrix4fv_modelViewProjection m (glUseProgram renderShaderProgram g))
  = framebuffer g
  /\ currentProgram (glUniformMatrix4fv_modelViewProjection m
                       (glUseProgram renderShaderProgram g))
     = (if renderLinked g then Some renderShaderProgram else currentProgram g)
  /\ u_modelViewProjection (glUniformMatrix4fv_modelViewProjection m
                              (glUseProgram renderShaderProgram g))
     = (if renderLinked g then m else u_modelViewProjection g).
Proof.
  destruct g as [pb cl rl cur udt umvp fb iss].
  unfold glUniformMatrix4fv_modelViewProjection, glUseProgram.
  cbn [linked renderLinked]. destruct rl; repeat split.
Qed.

Lemma framebuffer_display n cam g :
  current_program_linked g ->
  framebuffer (display n cam g)
  = framebuffer g ++ [FbClear; frame_image n cam (renderLinked g)].
Proof.
  intros W. unfold display, renderParticles.
  change (framebuffer (emit ?c ?x)) with (framebuffer x).
  rewrite framebuffer_glDrawArrays_points.
  change (framebuffer (emit ?c ?x)) with (framebuffer x).
  change (currentProgram (emit ?c ?x)) with (currentProgram x).
  change (u_modelViewProjection (emit ?c ?x)) with (u_modelViewProjection x).
  destruct (render_state_before_draw cam (glClear g)) as (-> & -> & ->).
  change (framebuffer (glClear g)) with (framebuffer g ++ [FbClear]).
  change (renderLinked (glClear g)) with (renderLinked g).
  change (currentProgram (glClear g)) with (currentProgram g).
  rewrite <- app_assoc. cbn [app]. unfold frame_image.
  destruct (renderLinked g) eqn:E.
  - rewrite map_const_seq. reflexivity.
  - destruct (currentProgram g) as [[|]|] eqn:C; try reflexivity.
    pose proof (W _ C) as L. cbn [linked] in L. congruence.
Qed.

Lemma framebuffer_loop_body n cam d f :
  current_program_linked (gl d) ->
  framebuffer (gl (loop_body n cam d f))
  = framebuffer (gl d) ++ [FbClear; frame_image n cam (renderLinked (gl d))].
Proof.
  intros W. unfold loop_body. cbn [gl].
  destruct (frame_paused f); cbn [negb].
  - apply framebuffer_display, W.
  - rewrite framebuffer_display by (apply current_program_linked_runComputeShader, W).
    destruct (links_runComputeShader n
                (F32.mul (F32.sub (currentTime f) (lastTime d)) (frame_simulationSpeed f))
                (gl d)) as (_ & -> & _).
    rewrite framebuffer_runComputeShader. reflexivity.
Qed.

Lemma framebuffer_run_loop n cam fs : forall d,
  current_program_linked (gl d) ->
  framebuffer (gl (run_loop n cam fs d))
  = framebuffer (gl d)
    ++ concat (replicate (length fs) [FbClear; frame_image n cam (renderLinked (gl d))]).
Proof.
  induction fs as [|f fs IH]; intros d W.
  - cbn. rewrite app_nil_r. reflexivity.
  - rewrite run_loop_cons, IH by (apply current_program_linked_loop_body, W).
    rewrite framebuffer_loop_body by exact W.
    destruct (links_loop_body n cam d f) as [_ ->].
    cbn [length replicate concat]. rewrite <- !app_assoc. reflexivity.
Qed.

(** X7.  Every frame presents the same picture.  A run writes to the
    framebuffer one clear and one draw per frame, running or paused, and the
    draw is the same each time: [n] red points, all at the clip position the
    vertex shader gives the constant attribute value (0, 0, 0).  The picture
    depends on the camera and on whether the render program linked, not on
    the particle store, the initial values, the clock or the speed: no vertex
    array over [particleBuffer] is ever set up for the draw. *)
Theorem every_frame_presents_the_same_picture
  (n : nat) (p0 v0 : vec3) (env : Env) (frames : list Frame) :
  glfwInit_ok env = true ->
  window_ok env = true ->
  exists d,
    final (main_with n p0 v0 env frames) = Some d
    /\ framebuffer (gl d)
       = concat (replicate (length frames)
                   [FbClear;
                    frame_image n (camera env)
                      (vertex_compile_status env && fragment_compile_status env
                       && render_link_status env)]).
Proof.
  intros Hg Hw. rewrite main_with_ok by assumption. cbn [final].
  eexists. split; [reflexivity|].
  rewrite framebuffer_run_loop by apply current_program_linked_initial.
  unfold initial_driver. cbn [gl].
  destruct (links_initOpenGL n p0 v0 env fresh_context) as (_ & -> & ->).
  reflexivity.
Qed.

Lemma every_frame_presents_the_same_picture_witness :
  exists d,
    final (main_with 342 origin default_velocity good_env three_half_steps) = Some d
    /\ framebuffer (gl d)
       = concat (replicate 3 [FbClear; frame_image 342 identity_mat4 true]).
Proof.
  exact (every_frame_presents_the_same_picture 342 origin default_velocity good_env
           three_half_steps eq_refl eq_refl).
Defined.

(** ** Shutdown *)

Lemma filter_terminate_loop_calls n cam fs : forall last,
  List.filter is_terminate (loop_calls n cam last fs) = [].
Proof.
  induction fs as [|f fs IH]; intros last; [reflexivity|].
  cbn [loop_calls]. rewrite !List.filter_app, IH.
  destruct (frame_paused f); reflexivity.
Qed.

Lemma filter_terminate_initOpenGL n p0 v0 env :
  List.filter is_terminate (issued (initOpenGL n p0 v0 env fresh_context)) = [].
Proof.
  assert (S : List.filter is_terminate
                (issued (initRenderShader env (initComputeShader env fresh_context))) = []).
  { unfold initRenderShader, initComputeShader, checkShaderCompilation.
    destruct (compute_compile_status env), (compute_link_status env),
      (vertex_compile_status env), (fragment_compile_status env), (render_link_status env);
      reflexivity. }
  unfold initOpenGL, initParticles. rewrite !issued_emit.
  change (issued (set_particleBuffer ?c ?x)) with (issued x).
  rewrite !List.filter_app, S. rewrite filter_map_nil by reflexivity. reflexivity.
Qed.

(** X8.  GLFW is shut down exactly once on every path on which it was
    started, and as the last thing the process does: a run that got past
    [glfwInit] (whether or not the window could be created, whatever the
    frames) issues [glfwTerminate] once, at the very end; a run whose
    [glfwInit] failed writes its one diagnostic and issues nothing else. *)
Theorem glfw_is_terminated_once_after_init
  (n : nat) (p0 v0 : vec3) (env : Env) (frames : list Frame) :
  if glfwInit_ok env
  then count is_terminate (output (main_with n p0 v0 env frames)) = 1
       /\ last (output (main_with n p0 v0 env frames)) = Some GlfwTerminate
  else output (main_with n p0 v0 env frames) = [Cerr "Failed to initialize GLFW"].
Proof.
  destruct (glfwInit_ok env) eqn:Hg; [|unfold main_with; rewrite Hg; reflexivity].
  destruct (window_ok env) eqn:Hw.
  - rewrite output_main_with by assumption. split.
    + unfold count. rewrite !List.filter_app, filter_terminate_initOpenGL,
        filter_terminate_loop_calls. reflexivity.
    + rewrite app_assoc. apply last_snoc.
  - unfold main_with. rewrite Hg, Hw. split; reflexivity.
Qed.

(** ** The lines printed at startup *)

(** X9.  [initParticles] prints one line for each of the first
    [min(10, n)] particles, in index order, each showing the initial
    position: none for an empty population, [n] lines below ten particles,
    ten from there on; the index never leaves the vector. *)
Theorem initParticles_prints_the_first_ten
  (n : nat) (p0 v0 : vec3) (env : Env) (g : GL) :
  List.filter is_Cout (issued (initParticles n p0 v0 env g))
  = List.filter is_Cout (issued g)
    ++ map (fun i => Cout_particle i p0) (seq 0 (Nat.min 10 n)).
Proof.
  unfold initParticles. rewrite !issued_emit.
  change (issued (set_particleBuffer ?c ?x)) with (issued x).
  rewrite !List.filter_app. cbn [List.filter is_Cout]. rewrite app_nil_r. f_equal.
  assert (B : forall a m, a + m <= n ->
              List.filter is_Cout
                (map (fun i => Cout_particle i (default origin (replicate n p0 !! i)))
                     (seq a m))
              = map (fun i => Cout_particle i p0) (seq a m)).
  { intros a m. revert a. induction m as [|m IH]; intros a H; [reflexivity|].
    cbn [seq map List.filter is_Cout]. rewrite IH by lia.
    rewrite lookup_replicate_2 by lia. reflexivity. }
  apply B. lia.
Qed.

(** ** The kernel's records over the uploaded positions *)

Lemma vector_data_replicate_splat n s :
  vector_data (replicate n (vec3_splat s)) = replicate (3 * n) s.
Proof.
  induction n as [|n IH]; [reflexivity|].
  rewrite vector_data_replicate_S, IH.
  replace (3 * S n) with (S (S (S (3 * n)))) by lia. reflexivity.
Qed.

Lemma read_vec3_zeros n (rest : store) k :
  k + 2 < 3 * n ->
  read_vec3 (vector_data (replicate n origin) ++ rest) k = Some origin.
Proof.
  intros H. apply read_vec3_Some. unfold origin. rewrite vector_data_replicate_splat.
  cbn [vx vy vz vec3_splat].
  repeat split; (rewrite lookup_app_l by (rewrite length_replicate; lia));
    apply lookup_replicate_2; lia.
Qed.

Lemma origin_at_rest dt :
  F32.is_finite dt = true -> vec3_add origin (vec3_scale origin dt) = origin.
Proof. destruct dt as [[|]| | |[|] m e]; intros H; try discriminate; reflexivity. Qed.

(** X10.  The kernel does not see the uploaded velocities where the host put
    them.  A record that lies wholly inside the first region of the upload
    (the packed positions, all at the origin) reads zeros as its velocity,
    whatever velocity was uploaded, so its invocation leaves the store
    exactly as it was for every finite time step: such a particle cannot
    move. *)
Theorem records_over_the_uploaded_positions_are_at_rest
  (n : nat) (v0 : vec3) (junk : nat -> float) (id : nat) (dt : float) :
  8 * id + 7 <= 3 * n ->
  F32.is_finite dt = true ->
  particle_position (initParticles_store n origin v0 junk) id = Some origin
  /\ particle_velocity (initParticles_store n origin v0 junk) id = Some origin
  /\ computeShader_main dt id (initParticles_store n origin v0 junk)
     = Some (initParticles_store n origin v0 junk).
Proof.
  intros Hid Hdt. rewrite initParticles_store_eq.
  assert (Hp : particle_position
                 (vector_data (replicate n origin) ++ vector_data (replicate n v0)) id
               = Some origin).
  { unfold particle_position. rewrite position_slot_eq. apply read_vec3_zeros. lia. }
  assert (Hv : particle_velocity
                 (vector_data (replicate n origin) ++ vector_data (replicate n v0)) id
               = Some origin).
  { unfold particle_velocity. rewrite velocity_slot_eq. apply read_vec3_zeros. lia. }
  split; [exact Hp|]. split; [exact Hv|].
  unfold computeShader_main. rewrite Hv, Hp. cbn [mbind option_bind].
  rewrite origin_at_rest by exact Hdt. f_equal.
  apply write_vec3_id. exact Hp.
Qed.

Lemma records_over_the_uploaded_positions_are_at_rest_witness :
  particle_velocity (initParticles_store 342 origin default_velocity (junk good_env)) 100
  = Some origin
  /\ computeShader_main F32.one 100
       (initParticles_store 342 origin default_velocity (junk good_env))
     = Some (initParticles_store 342 origin default_velocity (junk good_env)).
Proof.
  destruct (records_over_the_uploaded_positions_are_at_rest
              342 default_velocity (junk good_env) 100 F32.one) as (_ & V & M).
  - lia.
  - reflexivity.
  - split; [exact V|exact M].
Defined.

(** ** Dispatches and their barriers over a whole run *)

Lemma barrier_check_skips (cs tail : list call) :
  List.filter is_dispatch cs = [] ->
  barrier_after_each_dispatch (cs ++ tail) = barrier_after_each_dispatch tail.
Proof.
  induction cs as [|c cs IH]; intros H; [reflexivity|].
  cbn [List.filter] in H. destruct (is_dispatch c) eqn:D; [discriminate|].
  specialize (IH H). destruct c; cbn [app barrier_after_each_dispatch]; try exact IH.
  discriminate.
Qed.

Lemma barrier_check_loop_calls n cam fs : forall last tail,
  barrier_after_each_dispatch (loop_calls n cam last fs ++ tail)
  = barrier_after_each_dispatch tail.
Proof.
  induction fs as [|f fs IH]; intros last tail; [reflexivity|].
  cbn [loop_calls]. rewrite <- !app_assoc.
  destruct (frame_paused f); cbn [app step_calls display_calls barrier_after_each_dispatch];
    apply IH.
Qed.

(** X11.  Over a whole run every dispatch the process issues is directly
    followed by its memory barrier, before any other command: no draw, clear
    or buffer swap ever comes between a dispatch and the barrier, whatever
    the frames and whatever startup met. *)
Theorem every_dispatch_is_followed_by_its_barrier
  (n : nat) (p0 v0 : vec3) (env : Env) (frames : list Frame) :
  barrier_after_each_dispatch (output (main_with n p0 v0 env frames)) = true
  /\ count is_barrier (output (main_with n p0 v0 env frames))
     = count is_dispatch (output (main_with n p0 v0 env frames)).
Proof.
  destruct (glfwInit_ok env) eqn:Hg; [|unfold main_with; rewrite Hg; split; reflexivity].
  destruct (window_ok env) eqn:Hw; [|unfold main_with; rewrite Hg, Hw; split; reflexivity].
  rewrite output_main_with by assumption.
  destruct (issued_initOpenGL n p0 v0 env) as (_ & _ & C).
  assert (F : List.filter is_dispatch (issued (initOpenGL n p0 v0 env fresh_context)) = []).
  { unfold count in C. destruct (List.filter is_dispatch _); [reflexivity|discriminate]. }
  split.
  - rewrite barrier_check_skips by exact F. rewrite barrier_check_loop_calls. reflexivity.
  - assert (B : List.filter is_barrier (issued (initOpenGL n p0 v0 env fresh_context)) = []).
    { assert (S : List.filter is_barrier
                    (issued (initRenderShader env (initComputeShader env fresh_context))) = []).
      { unfold initRenderShader, initComputeShader, checkShaderCompilation.
        destruct (compute_compile_status env), (compute_link_status env),
          (vertex_compile_status env), (fragment_compile_status env),
          (render_link_status env); reflexivity. }
      unfold initOpenGL, initParticles. rewrite !issued_emit.
      change (issued (set_particleBuffer ?c ?x)) with (issued x).
      rewrite !List.filter_app, S. rewrite filter_map_nil by reflexivity. reflexivity. }
    unfold count. rewrite !List.filter_app, F, B. cbn [app List.filter is_barrier is_dispatch].
    rewrite !app_nil_r.
    generalize (startTime env). induction frames as [|f fs IH]; intros last; [reflexivity|].
    cbn [loop_calls]. rewrite !List.filter_app, !length_app, IH.
    destruct (frame_paused f); reflexivity.
Qed.

(** ** Uniformity *)

(** Two records that the dispatch treats alike (both visited or both left
    out) and that hold the same position and velocity before a dispatch hold
    the same position and velocity after it. *)
Lemma run_invocations_keeps_equal_records_equal dt ids (b b' : store) i j :
  NoDup ids ->
  run_invocations dt ids b = Some b' ->
  (i ∈ ids <-> j ∈ ids) ->
  particle_position b i = particle_position b j ->
  particle_velocity b i = particle_velocity b j ->
  particle_position b' i = particle_position b' j
  /\ particle_velocity b' i = particle_velocity b' j.
Proof.
  intros ND H Hij Hp Hv. split.
  - destruct (decide (i ∈ ids)) as [Hi|Hi].
    + pose proof (proj1 Hij Hi) as Hj.
      destruct (run_invocations_position_visited _ _ _ _ _ ND H Hi)
        as (pi & vi & Pi & Vi & ->).
      destruct (run_invocations_position_visited _ _ _ _ _ ND H Hj)
        as (pj & vj & Pj & Vj & ->).
      rewrite Pi, Pj in Hp. rewrite Vi, Vj in Hv.
      injection Hp as <-. injection Hv as <-. reflexivity.
    + assert (Hj : j ∉ ids) by (intros X; apply Hi, Hij, X).
      rewrite (run_invocations_position_unvisited _ _ _ _ _ H Hi).
      rewrite (run_invocations_position_unvisited _ _ _ _ _ H Hj). exact Hp.
  - rewrite !(run_invocations_particle_velocity _ _ _ _ H). exact Hv.
Qed.

Lemma run_loop_keeps_equal_records_equal n cam fs : forall d (b b' : store) i j,
  current_program_linked (gl d) ->
  particleBuffer (gl d) = Some b ->
  particleBuffer (gl (run_loop n cam fs d)) = Some b' ->
  (i ∈ invocation_ids (n / 256) <-> j ∈ invocation_ids (n / 256)) ->
  particle_position b i = particle_position b j ->
  particle_velocity b i = particle_velocity b j ->
  particle_position b' i = particle_position b' j
  /\ particle_velocity b' i = particle_velocity b' j.
Proof.
  induction fs as [|f fs IH]; intros d b b' i j W Hb Hb' Hij Hp Hv.
  - cbn in Hb'. rewrite Hb in Hb'. injection Hb' as <-. auto.
  - rewrite run_loop_cons in Hb'.
    pose proof (current_program_linked_loop_body n cam d f W) as W1.
    destruct (particleBuffer (gl (loop_body n cam d f))) as [b1|] eqn:E1;
      [|rewrite particleBuffer_run_loop_None in Hb' by exact E1; discriminate].
    assert (A : particle_position b1 i = particle_position b1 j
                /\ particle_velocity b1 i = particle_velocity b1 j).
    { destruct (frame_paused f) eqn:P.
      - rewrite particleBuffer_loop_body_paused in E1 by exact P.
        rewrite Hb in E1. injection E1 as <-. auto.
      - rewrite particleBuffer_loop_body_running in E1 by assumption.
        rewrite Hb in E1. destruct (computeLinked (gl d)).
        + cbn [mbind option_bind] in E1.
          apply (run_invocations_keeps_equal_records_equal _ _ _ _ _ _
                   (NoDup_invocation_ids (n / 256)) E1 Hij Hp Hv).
        + injection E1 as <-. auto. }
    destruct A as [Hp1 Hv1]. apply (IH _ _ _ i j W1 E1 Hb' Hij Hp1 Hv1).
Qed.

(** C10.  Uniformity is kept.  The update rule is the same for every index:
    over any sequence of frames, for any particle count, any two records that
    the dispatch treats alike and that hold the same position and the same
    velocity before the frames hold the same position and the same velocity
    after them, as long as the store stays defined.  And in every state of
    the frame loop of the program all [MAX_PARTICLES] particles of the store
    [initParticles] built hold one position and one velocity. *)
Theorem particles_stay_uniform :
  (forall n cam fs d (b b' : store) i j,
      current_program_linked (gl d) ->
      particleBuffer (gl d) = Some b ->
      particleBuffer (gl (run_loop n cam fs d)) = Some b' ->
      (i ∈ invocation_ids (n / 256) <-> j ∈ invocation_ids (n / 256)) ->
      particle_position b i = particle_position b j ->
      particle_velocity b i = particle_velocity b j ->
      particle_position b' i = particle_position b' j
      /\ particle_velocity b' i = particle_velocity b' j)
  /\ (forall env d,
         reachable MAX_PARTICLES origin default_velocity env d ->
         exists b, particleBuffer (gl d) = Some b /\ uniform_particles MAX_PARTICLES b).
Proof.
  split.
  - intros n cam fs. apply run_loop_keeps_equal_records_equal.
  - intros env d R.
    exists (initParticles_store MAX_PARTICLES origin default_velocity (junk env)).
    split; [apply reachable_store_small; [unfold MAX_PARTICLES; lia|exact R]|].
    apply uniform_particles_init.
Qed.

(** Two records of one work group that does run (342 particles), equal at
    the start and moved by three steps of 0.5, equal at the end; and the
    program's own store after the same frames. *)
Lemma particles_stay_uniform_witness :
  (exists b' p,
      particleBuffer
        (gl (run_loop 342 identity_mat4 three_half_steps
               (initial_driver 342 origin default_velocity good_env))) = Some b'
      /\ particle_position (initParticles_store 342 origin default_velocity (junk good_env)) 129
         = Some (Vec3 F32.cst_0_01 F32.zero F32.zero)
      /\ particle_position b' 129 = Some p
      /\ particle_position b' 132 = Some p
      /\ F32.is_zero (vz p) = false
      /\ particle_velocity b' 129 = particle_velocity b' 132)
  /\ (exists b,
         particleBuffer
           (gl (run_loop MAX_PARTICLES (camera good_env) three_half_steps
                  (initial_driver MAX_PARTICLES origin default_velocity good_env))) = Some b
         /\ uniform_particles MAX_PARTICLES b).
Proof.
  destruct particles_stay_uniform as [K U]. split.
  - assert (M : (b ← particleBuffer
                       (gl (run_loop 342 identity_mat4 three_half_steps
                              (initial_driver 342 origin default_velocity good_env)));
                 p ← particle_position b 129; Some (F32.is_zero (vz p))) = Some false)
      by (vm_compute; reflexivity).
    destruct (particleBuffer
                (gl (run_loop 342 identity_mat4 three_half_steps
                       (initial_driver 342 origin default_velocity good_env))))
      as [b'|] eqn:E; [|discriminate M].
    cbn [mbind option_bind] in M.
    destruct (particle_position b' 129) as [p|] eqn:P; [|discriminate M].
    cbn [mbind option_bind] in M. injection M as Z.
    destruct (K 342 identity_mat4 three_half_steps
                (initial_driver 342 origin default_velocity good_env)
                (initParticles_store 342 origin default_velocity (junk good_env)) b' 129 132)
      as [Hp Hv].
    + apply current_program_linked_initial.
    + reflexivity.
    + exact E.
    + rewrite !elem_of_invocation_ids. unfold local_size_x. split; intros _; vm_compute; lia.
    + vm_compute. reflexivity.
    + vm_compute. reflexivity.
    + exists b', p. split; [reflexivity|]. split; [vm_compute; reflexivity|].
      split; [exact P|]. split; [rewrite <- Hp; exact P|]. split; [exact Z|exact Hv].
  - apply (U good_env). apply reachable_run_loop. apply reachable_init.
Defined.
